(** * MCP Playwright server: session registry and command dispatch

    A shallow embedding of [src/lib/server.js].  The module-wide [state]
    object (three JavaScript [Map]s and the [currentSession] field) is
    threaded explicitly; the automation driver (Playwright), the clock
    ([Date.now]) and the standard error stream are the outside world.  Every
    call that leaves the server is appended to a trace, and the answer of
    the outside world is given by a [driver] that may depend on the whole
    trace so far, so a theorem that quantifies over [driver] covers every
    behaviour of the browser.

    Handlers run to completion one at a time (section 5 of the
    specification): an [await] is a call to the driver, not a point where
    another handler is interleaved. *)

From Stdlib Require Import String Ascii List ZArith NArith Bool Lia.
From Stdlib Require Import DecimalString.
From Stdlib Require Strings.Byte.
Import ListNotations.
Local Open Scope list_scope.
Local Open Scope string_scope.

Set Implicit Arguments.

(* ------------------------------------------------------------------ *)
(** ** JavaScript values that the server handles *)

(** [state.currentSession] is [null] or a session id string; the same
    values are used as keys of the three maps. *)
Inductive session_ref : Type :=
| Null
| Id (s : string).

Definition session_ref_eqb (a b : session_ref) : bool :=
  match a, b with
  | Null, Null => true
  | Id s, Id t => String.eqb s t
  | _, _ => false
  end.

(** Template-literal conversion [`${sessionId}`]. *)
Definition show_ref (r : session_ref) : string :=
  match r with
  | Null => "null"
  | Id s => s
  end.

(** Truthiness of a session reference: [null] and the empty string are
    falsy. *)
Definition ref_truthy (r : session_ref) : bool :=
  match r with
  | Null => false
  | Id s => negb (String.eqb s "")
  end.

(** An optional string parameter: [None] is [undefined]. Truthiness as in
    [if (outputPath)]. *)
Definition str_truthy (o : option string) : bool :=
  match o with
  | None => false
  | Some s => negb (String.eqb s "")
  end.

(** [String.prototype.endsWith]. *)
Definition endsWith (s suffix : string) : bool :=
  let ls := String.length s in
  let lf := String.length suffix in
  if Nat.leb lf ls then String.eqb (substring (ls - lf) lf s) suffix else false.

(** A parameter with a default value, [({ x = d }) => ...]. *)
Definition or_default {A : Type} (o : option A) (d : A) : A :=
  match o with
  | Some a => a
  | None => d
  end.

(** JavaScript numbers.  The handlers only write number literals, compare
    a number with zero and print a number inside a template literal, so the
    number type is kept abstract behind these three operations. *)
Class JsNumber : Type := {
  number : Type;
  num_lit : Z -> number;
  num_gt : number -> number -> bool;
  num_to_string : number -> string
}.

(** An [Error] object; only its [message] is ever read. *)
Record Error : Type := mkError { message : string }.

(* ------------------------------------------------------------------ *)
(** ** [Buffer.prototype.toString("base64")] *)

Definition base64_alphabet : string :=
  "ABCDEFGHIJKLMNOPQRSTUVWXYZabcdefghijklmnopqrstuvwxyz0123456789+/".

Definition base64_digit (n : N) : ascii :=
  match String.get (N.to_nat n) base64_alphabet with
  | Some c => c
  | None => "="%char
  end.

Definition Buffer : Type := list Byte.byte.

Fixpoint base64 (bs : Buffer) : string :=
  match bs with
  | [] => ""
  | [a] =>
      let n := (Byte.to_N a * 65536)%N in
      String (base64_digit (n / 262144))
        (String (base64_digit ((n / 4096) mod 64)) "==")
  | [a; b] =>
      let n := (Byte.to_N a * 65536 + Byte.to_N b * 256)%N in
      String (base64_digit (n / 262144))
        (String (base64_digit ((n / 4096) mod 64))
           (String (base64_digit ((n / 64) mod 64)) "="))
  | a :: b :: c :: rest =>
      let n := (Byte.to_N a * 65536 + Byte.to_N b * 256 + Byte.to_N c)%N in
      String (base64_digit (n / 262144))
        (String (base64_digit ((n / 4096) mod 64))
           (String (base64_digit ((n / 64) mod 64))
              (String (base64_digit (n mod 64)) (base64 rest))))
  end.

(* ------------------------------------------------------------------ *)
(** ** JavaScript [Map], keyed by session references

    A [Map] remembers insertion order, and [set] on a key that is present
    replaces the value in place. *)
Module JsMap.
Section WithValue.
Variable V : Type.

Definition t : Type := list (session_ref * V).

Definition empty : t := [].

Fixpoint get (k : session_ref) (m : t) : option V :=
  match m with
  | [] => None
  | (k', v) :: rest => if session_ref_eqb k k' then Some v else get k rest
  end.

Fixpoint set (k : session_ref) (v : V) (m : t) : t :=
  match m with
  | [] => [(k, v)]
  | (k', v') :: rest =>
      if session_ref_eqb k k' then (k, v) :: rest
      else (k', v') :: set k v rest
  end.

Fixpoint delete (k : session_ref) (m : t) : t :=
  match m with
  | [] => []
  | (k', v') :: rest =>
      if session_ref_eqb k k' then delete k rest
      else (k', v') :: delete k rest
  end.

Definition clear (m : t) : t := [].

Definition has (k : session_ref) (m : t) : bool :=
  match get k m with
  | Some _ => true
  | None => false
  end.

Definition keys (m : t) : list session_ref := map fst m.
End WithValue.

Arguments empty {V}.
End JsMap.

(* ------------------------------------------------------------------ *)
(** ** Server state *)

(** Browser, context and page objects are owned by the driver; the server
    only stores and passes them on. *)
Definition handle : Type := nat.

Record state : Type := {
  browsers : JsMap.t handle;
  contexts : JsMap.t handle;
  pages : JsMap.t handle;
  currentSession : session_ref
}.

Definition initial_state : state :=
  {| browsers := JsMap.empty;
     contexts := JsMap.empty;
     pages := JsMap.empty;
     currentSession := Null |}.

(** ** Result envelope *)
Record content_block : Type := {
  type : string;
  text : string
}.

Record envelope : Type := { content : list content_block }.

Definition text_block (s : string) : content_block :=
  {| type := "text"; text := s |}.

(** A block tagged as text. *)
Definition is_text (b : content_block) : Prop := type b = "text".

(** An envelope that reports the absence of an active session: one of its
    blocks ends with the message that [getPage] throws. *)
Definition no_active_session_flavored (env : envelope) : bool :=
  existsb (fun b => endsWith (text b) "No active browser session")
    (content env).

(** ** Tool parameters *)
Inductive browser_kind : Type := chromium | firefox | webkit.

Definition browser_name (b : browser_kind) : string :=
  match b with
  | chromium => "chromium"
  | firefox => "firefox"
  | webkit => "webkit"
  end.

Inductive wait_until : Type := load | domcontentloaded | networkidle.

Inductive image_type : Type := jpeg | png.

Inductive mouse_button : Type := right_button.

Inductive signal : Type := SIGTERM | SIGINT.

(** ** Results and outcomes *)

(** What an awaited promise settles to. *)
Inductive result (A : Type) : Type :=
| Resolved (a : A)
| Rejected (e : Error).
Arguments Rejected {A} e.

(** How a piece of code ends: it returns, it throws, or the process
    exits. *)
Inductive outcome (A : Type) : Type :=
| Returned (a : A)
| Threw (e : Error)
| Exited (code : Z).
Arguments Threw {A} e.
Arguments Exited {A} code.

(* ------------------------------------------------------------------ *)
(** ** The model, for any number representation *)
Section Model.
Context {Num : JsNumber}.

(** *** [browserOptionsSchema] *)
Record viewport_size : Type := {
  width : option number;
  height : option number
}.

Record browser_options : Type := {
  opt_headless : option bool;
  opt_viewport : option viewport_size;
  opt_userAgent : option string;
  opt_userDataDir : option string;
  opt_channel : option string
}.

(** The object literal [{}]. *)
Definition empty_options : browser_options :=
  {| opt_headless := None;
     opt_viewport := None;
     opt_userAgent := None;
     opt_userDataDir := None;
     opt_channel := None |}.

(** The [options] argument as the caller may send it. *)
Inductive options_arg : Type :=
| Undefined
| NullOptions
| Obj (o : browser_options).

(** [z.object({...}).optional().nullable().default({})]: the default
    replaces [undefined]; [null] is let through by [nullable]. *)
Definition browserOptionsSchema (input : options_arg) : options_arg :=
  match input with
  | Undefined => Obj empty_options
  | NullOptions => NullOptions
  | Obj o => Obj o
  end.

(** Optional chaining [options?.field]. *)
Definition chain {A : Type} (options : options_arg)
    (field : browser_options -> option A) : option A :=
  match options with
  | Undefined => None
  | NullOptions => None
  | Obj o => field o
  end.

Record launchOptions : Type := {
  headless : bool;
  args : option (list string);
  channel : option string
}.

Record contextOptions : Type := {
  viewport : option viewport_size;
  userAgent : option string
}.

(** *** Calls that leave the server

    One constructor per driver method that [server.js] uses, and
    [DateNow] for the clock. *)
Inductive call : Type :=
| Launch (browser : browser_kind) (o : launchOptions)
| NewContext (browserInstance : handle) (o : contextOptions)
| NewPage (context : handle)
| DateNow
| Goto (page : handle) (url : string) (waitUntil : wait_until)
| Url (page : handle)
| Reload (page : handle)
| WaitForTimeout (page : handle) (ms : number)
| WaitForSelector (page : handle) (selector : string) (timeout : number)
| Click (page : handle) (selector : string) (button : option mouse_button)
    (timeout : number)
| Fill (page : handle) (selector value : string) (timeout : number)
| TextContent (page : handle) (selector : string) (timeout : number)
| Hover (page : handle) (selector : string) (timeout : number)
| DragAndDrop (page : handle) (selector targetSelector : string)
    (timeout : number)
| Dblclick (page : handle) (selector : string) (timeout : number)
| KeyboardPress (page : handle) (key : string)
| SetInputFiles (page : handle) (selector filePath : string)
    (timeout : number)
| Screenshot (page : handle) (path : option string) (fullPage : bool)
    (type : image_type)
| EvaluateBodyWithoutScripts (page : handle)
| Close (browserInstance : handle).

(** What a call resolves to. *)
Definition resp (c : call) : Type :=
  match c with
  | Launch _ _ => handle
  | NewContext _ _ => handle
  | NewPage _ => handle
  | DateNow => number
  | Url _ => string
  | TextContent _ _ _ => option string
  | Screenshot _ _ _ _ => Buffer
  | EvaluateBodyWithoutScripts _ => string
  | _ => unit
  end.

(** The outside world: given the calls made so far and the next call,
    its answer. *)
Definition driver_t : Type := list call -> forall c : call, result (resp c).

(** *** The world a handler runs in *)
Record world : Type := {
  st : state;
  trace : list call;
  stderr : list (session_ref * Error)
}.

Definition initial_world : world :=
  {| st := initial_state; trace := []; stderr := [] |}.

Definition M (A : Type) : Type := world -> outcome A * world.

Definition ret {A : Type} (a : A) : M A := fun w => (Returned a, w).

Definition bind {A B : Type} (m : M A) (k : A -> M B) : M B :=
  fun w =>
    match m w with
    | (Returned a, w') => k a w'
    | (Threw e, w') => (Threw e, w')
    | (Exited code, w') => (Exited code, w')
    end.

Definition throw {A : Type} (e : Error) : M A := fun w => (Threw e, w).

(** [try { body } catch (e) { handler }]; state changes made before the
    throw are kept. *)
Definition try_catch {A : Type} (body : M A) (handler : Error -> M A) : M A :=
  fun w =>
    match body w with
    | (Returned a, w') => (Returned a, w')
    | (Threw e, w') => handler e w'
    | (Exited code, w') => (Exited code, w')
    end.

Definition get_state : M state := fun w => (Returned (st w), w).

Definition modify_state (f : state -> state) : M unit :=
  fun w =>
    (Returned tt, {| st := f (st w); trace := trace w; stderr := stderr w |}).

Definition console_error (sessionId : session_ref) (e : Error) : M unit :=
  fun w =>
    (Returned tt,
     {| st := st w; trace := trace w;
        stderr := (stderr w ++ [(sessionId, e)])%list |}).

Definition process_exit {A : Type} (code : Z) : M A :=
  fun w => (Exited code, w).
End Model.

Declare Scope js_scope.
Delimit Scope js_scope with js.
Notation "x <- m ;; k" := (bind m (fun x => k))
  (at level 100, m at next level, right associativity) : js_scope.
Notation "m ;;; k" := (bind m (fun _ => k))
  (at level 100, right associativity) : js_scope.

(* ------------------------------------------------------------------ *)
(** ** Helper functions and start_browser *)
Section Handlers.
Context {Num : JsNumber}.
Variable driver : driver_t.
Local Open Scope js_scope.

(** [await] of a driver method (or a plain call of [Date.now]): the call
    is recorded, and it resolves or rejects as the driver says. *)
Definition await (c : call) : M (resp c) :=
  fun w =>
    let w' :=
      {| st := st w; trace := (trace w ++ [c])%list; stderr := stderr w |} in
    match driver (trace w) c with
    | Resolved a => (Returned a, w')
    | Rejected e => (Threw e, w')
    end.

(** A stored page is an object, hence truthy: [!page] holds exactly when
    the map has no entry under [currentSession]. *)
Definition getPage : M handle :=
  s <- get_state ;;
  match JsMap.get (currentSession s) (pages s) with
  | Some page => ret page
  | None => throw (mkError "No active browser session")
  end.

(** The failure envelope built in every [catch] block. *)
Definition error_envelope (doing : string) (e : Error) : envelope :=
  {| content := [text_block ("Error " ++ doing ++ ": " ++ message e)] |}.

(** Field updates on [state]. *)
Definition with_browsers (f : JsMap.t handle -> JsMap.t handle) (s : state)
  : state :=
  {| browsers := f (browsers s); contexts := contexts s; pages := pages s;
     currentSession := currentSession s |}.

Definition with_contexts (f : JsMap.t handle -> JsMap.t handle) (s : state)
  : state :=
  {| browsers := browsers s; contexts := f (contexts s); pages := pages s;
     currentSession := currentSession s |}.

Definition with_pages (f : JsMap.t handle -> JsMap.t handle) (s : state)
  : state :=
  {| browsers := browsers s; contexts := contexts s; pages := f (pages s);
     currentSession := currentSession s |}.

Definition with_currentSession (r : session_ref) (s : state) : state :=
  {| browsers := browsers s; contexts := contexts s; pages := pages s;
     currentSession := r |}.

(** Lines 88-103: [launchOptions]. *)
Definition make_launchOptions (options : options_arg) : launchOptions :=
  let launchOptions :=
    {| headless := or_default (chain options opt_headless) false;
       args := None;
       channel := None |} in
  let launchOptions :=
    if str_truthy (chain options opt_userDataDir) then
      {| headless := headless launchOptions;
         args :=
           Some (("--user-data-dir="
                    ++ or_default (chain options opt_userDataDir) "")
                   :: or_default (args launchOptions) []);
         channel := channel launchOptions |}
    else launchOptions in
  if str_truthy (chain options opt_channel) then
    {| headless := headless launchOptions;
       args := args launchOptions;
       channel := chain options opt_channel |}
  else launchOptions.

(** Lines 119-125: [contextOptions]. *)
Definition make_contextOptions (options : options_arg) : contextOptions :=
  let contextOptions := {| viewport := None; userAgent := None |} in
  let contextOptions :=
    match chain options opt_viewport with
    | Some v =>
        {| viewport := Some v; userAgent := userAgent contextOptions |}
    | None => contextOptions
    end in
  if str_truthy (chain options opt_userAgent) then
    {| viewport := viewport contextOptions;
       userAgent := chain options opt_userAgent |}
  else contextOptions.

(** The parameter default [options = {}]. *)
Definition default_options (options : options_arg) : options_arg :=
  match options with
  | Undefined => Obj empty_options
  | _ => options
  end.

(** The [try] block of start_browser.  The [default] branch of the
    [switch] needs a [browser] outside the enumeration of the tool's
    schema, so it has no counterpart here. *)
Definition start_browser_try (browser : browser_kind) (options : options_arg)
  : M envelope :=
  let options := default_options options in
  let launchOptions := make_launchOptions options in
  browserInstance <-
    match browser with
    | chromium => (await (Launch chromium launchOptions) : M handle)
    | firefox => (await (Launch firefox launchOptions) : M handle)
    | webkit => (await (Launch webkit launchOptions) : M handle)
    end ;;
  let contextOptions := make_contextOptions options in
  context <- (await (NewContext browserInstance contextOptions) : M handle) ;;
  page <- (await (NewPage context) : M handle) ;;
  now <- (await DateNow : M number) ;;
  let sessionId := Id (browser_name browser ++ "_" ++ num_to_string now) in
  modify_state (with_browsers (JsMap.set sessionId browserInstance)) ;;;
  modify_state (with_contexts (JsMap.set sessionId context)) ;;;
  modify_state (with_pages (JsMap.set sessionId page)) ;;;
  modify_state (with_currentSession sessionId) ;;;
  ret {| content :=
           [text_block
              ("Browser started with session_id: " ++ show_ref sessionId)] |}.

Definition start_browser (browser : browser_kind) (options : options_arg)
  : M envelope :=
  try_catch (start_browser_try browser options)
    (fun e => ret (error_envelope "starting browser" e)).

(** *** Page tools *)

Definition navigate_try (url : string) (waitUntil : option wait_until)
  : M envelope :=
  let waitUntil := or_default waitUntil load in
  page <- getPage ;;
  await (Goto page url waitUntil) ;;;
  ret {| content := [text_block ("Navigated to " ++ url)] |}.

Definition navigate (url : string) (waitUntil : option wait_until)
  : M envelope :=
  try_catch (navigate_try url waitUntil)
    (fun e => ret (error_envelope "navigating" e)).

Definition get_current_url_try : M envelope :=
  page <- getPage ;;
  currentUrl <- (await (Url page) : M string) ;;
  ret {| content := [text_block currentUrl] |}.

Definition get_current_url : M envelope :=
  try_catch get_current_url_try
    (fun e => ret (error_envelope "getting current URL" e)).

Definition refresh_browser_try (waitTime : option number) : M envelope :=
  let waitTime := or_default waitTime (num_lit 15000) in
  page <- getPage ;;
  await (Reload page) ;;;
  (if num_gt waitTime (num_lit 0)
   then (await (WaitForTimeout page waitTime) : M unit)
   else ret tt) ;;;
  ret {| content :=
           [text_block
              ("Page refreshed and waited " ++ num_to_string waitTime
                 ++ "ms for content to load")] |}.

Definition refresh_browser (waitTime : option number) : M envelope :=
  try_catch (refresh_browser_try waitTime)
    (fun e => ret (error_envelope "refreshing page" e)).

Definition sleep_try (ms : option number) : M envelope :=
  let ms := or_default ms (num_lit 5000) in
  page <- getPage ;;
  (if num_gt ms (num_lit 0)
   then (await (WaitForTimeout page ms) : M unit)
   else ret tt) ;;;
  ret {| content :=
           [text_block ("Slept for " ++ num_to_string ms ++ "ms")] |}.

Definition sleep (ms : option number) : M envelope :=
  try_catch (sleep_try ms) (fun e => ret (error_envelope "sleeping" e)).

(** *** Element interaction tools *)

Definition find_element_try (selector : string) (timeout : option number)
  : M envelope :=
  let timeout := or_default timeout (num_lit 10000) in
  page <- getPage ;;
  await (WaitForSelector page selector timeout) ;;;
  ret {| content := [text_block "Element found"] |}.

Definition find_element (selector : string) (timeout : option number)
  : M envelope :=
  try_catch (find_element_try selector timeout)
    (fun e => ret (error_envelope "finding element" e)).

Definition click_element_try (selector : string) (timeout : option number)
  : M envelope :=
  let timeout := or_default timeout (num_lit 10000) in
  page <- getPage ;;
  await (Click page selector None timeout) ;;;
  ret {| content := [text_block "Element clicked"] |}.

Definition click_element (selector : string) (timeout : option number)
  : M envelope :=
  try_catch (click_element_try selector timeout)
    (fun e => ret (error_envelope "clicking element" e)).

Definition send_keys_try (selector text : string) (timeout : option number)
  : M envelope :=
  let timeout := or_default timeout (num_lit 10000) in
  page <- getPage ;;
  await (Fill page selector text timeout) ;;;
  ret {| content :=
           [text_block
              ("Text " ++ String (ascii_of_nat 34) text
                 ++ String (ascii_of_nat 34) " entered into element")] |}.

Definition send_keys (selector text : string) (timeout : option number)
  : M envelope :=
  try_catch (send_keys_try selector text timeout)
    (fun e => ret (error_envelope "entering text" e)).

(** [text || ""]: [null] and the empty string both give the empty
    string. *)
Definition text_or_empty (text : option string) : string :=
  if str_truthy text then or_default text "" else "".

Definition get_element_text_try (selector : string)
    (timeout : option number) : M envelope :=
  let timeout := or_default timeout (num_lit 10000) in
  page <- getPage ;;
  text <- (await (TextContent page selector timeout) : M (option string)) ;;
  ret {| content := [text_block (text_or_empty text)] |}.

Definition get_element_text (selector : string) (timeout : option number)
  : M envelope :=
  try_catch (get_element_text_try selector timeout)
    (fun e => ret (error_envelope "getting element text" e)).

Definition hover_try (selector : string) (timeout : option number)
  : M envelope :=
  let timeout := or_default timeout (num_lit 10000) in
  page <- getPage ;;
  await (Hover page selector timeout) ;;;
  ret {| content := [text_block "Hovered over element"] |}.

Definition hover (selector : string) (timeout : option number) : M envelope :=
  try_catch (hover_try selector timeout)
    (fun e => ret (error_envelope "hovering over element" e)).

Definition drag_and_drop_try (selector targetSelector : string)
    (timeout : option number) : M envelope :=
  let timeout := or_default timeout (num_lit 10000) in
  page <- getPage ;;
  await (DragAndDrop page selector targetSelector timeout) ;;;
  ret {| content := [text_block "Drag and drop completed"] |}.

Definition drag_and_drop (selector targetSelector : string)
    (timeout : option number) : M envelope :=
  try_catch (drag_and_drop_try selector targetSelector timeout)
    (fun e => ret (error_envelope "performing drag and drop" e)).

Definition double_click_try (selector : string) (timeout : option number)
  : M envelope :=
  let timeout := or_default timeout (num_lit 10000) in
  page <- getPage ;;
  await (Dblclick page selector timeout) ;;;
  ret {| content := [text_block "Double click performed"] |}.

Definition double_click (selector : string) (timeout : option number)
  : M envelope :=
  try_catch (double_click_try selector timeout)
    (fun e => ret (error_envelope "performing double click" e)).

Definition right_click_try (selector : string) (timeout : option number)
  : M envelope :=
  let timeout := or_default timeout (num_lit 10000) in
  page <- getPage ;;
  await (Click page selector (Some right_button) timeout) ;;;
  ret {| content := [text_block "Right click performed"] |}.

Definition right_click (selector : string) (timeout : option number)
  : M envelope :=
  try_catch (right_click_try selector timeout)
    (fun e => ret (error_envelope "performing right click" e)).

Definition press_key_try (key : string) : M envelope :=
  page <- getPage ;;
  await (KeyboardPress page key) ;;;
  ret {| content := [text_block ("Key '" ++ key ++ "' pressed")] |}.

Definition press_key (key : string) : M envelope :=
  try_catch (press_key_try key)
    (fun e => ret (error_envelope "pressing key" e)).

Definition upload_file_try (selector filePath : string)
    (timeout : option number) : M envelope :=
  let timeout := or_default timeout (num_lit 10000) in
  page <- getPage ;;
  await (SetInputFiles page selector filePath timeout) ;;;
  ret {| content := [text_block "File upload initiated"] |}.

Definition upload_file (selector filePath : string)
    (timeout : option number) : M envelope :=
  try_catch (upload_file_try selector filePath timeout)
    (fun e => ret (error_envelope "uploading file" e)).

(** *** Screenshot, page source, session closing *)

(** [outputPath?.endsWith(".jpg") ? "jpeg" : "png"]. *)
Definition screenshot_type (outputPath : option string) : image_type :=
  match outputPath with
  | Some p => if endsWith p ".jpg" then jpeg else png
  | None => png
  end.

Definition take_screenshot_try (outputPath : option string)
    (fullPage : option bool) : M envelope :=
  let fullPage := or_default fullPage false in
  page <- getPage ;;
  screenshot <-
    (await (Screenshot page outputPath fullPage (screenshot_type outputPath))
     : M Buffer) ;;
  if str_truthy outputPath then
    ret {| content :=
             [text_block
                ("Screenshot saved to " ++ or_default outputPath "")] |}
  else
    ret {| content :=
             [text_block "Screenshot captured as base64:";
              text_block (base64 screenshot)] |}.

Definition take_screenshot (outputPath : option string)
    (fullPage : option bool) : M envelope :=
  try_catch (take_screenshot_try outputPath fullPage)
    (fun e => ret (error_envelope "taking screenshot" e)).

Definition get_page_source_try (delay : option number) : M envelope :=
  let delay := or_default delay (num_lit 0) in
  page <- getPage ;;
  (if num_gt delay (num_lit 0)
   then (await (WaitForTimeout page delay) : M unit)
   else ret tt) ;;;
  bodySource <- (await (EvaluateBodyWithoutScripts page) : M string) ;;
  ret {| content := [text_block bodySource] |}.

Definition get_page_source (delay : option number) : M envelope :=
  try_catch (get_page_source_try delay)
    (fun e => ret (error_envelope "getting page source" e)).

Definition close_session_try : M envelope :=
  s <- get_state ;;
  match JsMap.get (currentSession s) (browsers s) with
  | Some browser => (await (Close browser) : M unit)
  | None => ret tt
  end ;;;
  s <- get_state ;;
  modify_state (with_browsers (JsMap.delete (currentSession s))) ;;;
  s <- get_state ;;
  modify_state (with_contexts (JsMap.delete (currentSession s))) ;;;
  s <- get_state ;;
  modify_state (with_pages (JsMap.delete (currentSession s))) ;;;
  s <- get_state ;;
  let sessionId := currentSession s in
  modify_state (with_currentSession Null) ;;;
  ret {| content :=
           [text_block
              ("Browser session " ++ show_ref sessionId ++ " closed")] |}.

Definition close_session : M envelope :=
  try_catch close_session_try
    (fun e => ret (error_envelope "closing session" e)).

(** *** The [browser-status] resource *)
Definition browser_status : M string :=
  s <- get_state ;;
  ret (if ref_truthy (currentSession s)
       then "Active browser session: " ++ show_ref (currentSession s)
       else "No active browser session").

(** *** Cleanup handler *)

(** The body of [for (const [sessionId, browser] of state.browsers)]. *)
Fixpoint cleanup_loop (entries : list (session_ref * handle)) : M unit :=
  match entries with
  | [] => ret tt
  | (sessionId, browser) :: rest =>
      try_catch (await (Close browser) : M unit)
        (fun e => console_error sessionId e) ;;;
      cleanup_loop rest
  end.

Definition cleanup : M unit :=
  s <- get_state ;;
  cleanup_loop (browsers s) ;;;
  modify_state (with_browsers (@JsMap.clear handle)) ;;;
  modify_state (with_contexts (@JsMap.clear handle)) ;;;
  modify_state (with_pages (@JsMap.clear handle)) ;;;
  modify_state (with_currentSession Null) ;;;
  process_exit 0.

(** [process.on("SIGTERM", cleanup); process.on("SIGINT", cleanup)]. *)
Definition on_signal (sig : signal) : M unit :=
  match sig with
  | SIGTERM => cleanup
  | SIGINT => cleanup
  end.

(** *** Dispatch *)

(** A tool invocation, with the parameters of its declared shape. *)
Inductive tool_call : Type :=
| Start_browser (browser : browser_kind) (options : options_arg)
| Navigate (url : string) (waitUntil : option wait_until)
| Get_current_url
| Refresh_browser (waitTime : option number)
| Sleep (ms : option number)
| Find_element (selector : string) (timeout : option number)
| Click_element (selector : string) (timeout : option number)
| Send_keys (selector text : string) (timeout : option number)
| Get_element_text (selector : string) (timeout : option number)
| Hover_over (selector : string) (timeout : option number)
| Drag_and_drop (selector targetSelector : string) (timeout : option number)
| Double_click (selector : string) (timeout : option number)
| Right_click (selector : string) (timeout : option number)
| Press_key (key : string)
| Upload_file (selector filePath : string) (timeout : option number)
| Take_screenshot (outputPath : option string) (fullPage : option bool)
| Get_page_source (delay : option number)
| Close_session.

(** The [try] block that a tool invocation runs; the [options] of
    [start_browser] go through [browserOptionsSchema] first. *)
Definition try_block (c : tool_call) : M envelope :=
  match c with
  | Start_browser b o => start_browser_try b (browserOptionsSchema o)
  | Navigate u w => navigate_try u w
  | Get_current_url => get_current_url_try
  | Refresh_browser t => refresh_browser_try t
  | Sleep ms => sleep_try ms
  | Find_element s t => find_element_try s t
  | Click_element s t => click_element_try s t
  | Send_keys s x t => send_keys_try s x t
  | Get_element_text s t => get_element_text_try s t
  | Hover_over s t => hover_try s t
  | Drag_and_drop s d t => drag_and_drop_try s d t
  | Double_click s t => double_click_try s t
  | Right_click s t => right_click_try s t
  | Press_key k => press_key_try k
  | Upload_file s f t => upload_file_try s f t
  | Take_screenshot p f => take_screenshot_try p f
  | Get_page_source d => get_page_source_try d
  | Close_session => close_session_try
  end.

(** The words after [Error] in the tool's [catch] block. *)
Definition doing (c : tool_call) : string :=
  match c with
  | Start_browser _ _ => "starting browser"
  | Navigate _ _ => "navigating"
  | Get_current_url => "getting current URL"
  | Refresh_browser _ => "refreshing page"
  | Sleep _ => "sleeping"
  | Find_element _ _ => "finding element"
  | Click_element _ _ => "clicking element"
  | Send_keys _ _ _ => "entering text"
  | Get_element_text _ _ => "getting element text"
  | Hover_over _ _ => "hovering over element"
  | Drag_and_drop _ _ _ => "performing drag and drop"
  | Double_click _ _ => "performing double click"
  | Right_click _ _ => "performing right click"
  | Press_key _ => "pressing key"
  | Upload_file _ _ _ => "uploading file"
  | Take_screenshot _ _ => "taking screenshot"
  | Get_page_source _ => "getting page source"
  | Close_session => "closing session"
  end.

(** The registered handler of each tool. *)
Definition handle_tool (c : tool_call) : M envelope :=
  match c with
  | Start_browser b o => start_browser b (browserOptionsSchema o)
  | Navigate u w => navigate u w
  | Get_current_url => get_current_url
  | Refresh_browser t => refresh_browser t
  | Sleep ms => sleep ms
  | Find_element s t => find_element s t
  | Click_element s t => click_element s t
  | Send_keys s x t => send_keys s x t
  | Get_element_text s t => get_element_text s t
  | Hover_over s t => hover s t
  | Drag_and_drop s d t => drag_and_drop s d t
  | Double_click s t => double_click s t
  | Right_click s t => right_click s t
  | Press_key k => press_key k
  | Upload_file s f t => upload_file s f t
  | Take_screenshot p f => take_screenshot p f
  | Get_page_source d => get_page_source d
  | Close_session => close_session
  end.

(** The tools that resolve the active page with [getPage]. *)
Definition requires_page (c : tool_call) : bool :=
  match c with
  | Start_browser _ _ => false
  | Close_session => false
  | _ => true
  end.

(** *** Executions *)

(** What can happen to the server: a tool invocation, a read of the
    status resource, a termination signal. *)
Inductive event : Type :=
| Tool (c : tool_call)
| ReadStatus
| Signal (sig : signal).

Definition step (w : world) (ev : event) : world :=
  match ev with
  | Tool c => snd (handle_tool c w)
  | ReadStatus => snd (browser_status w)
  | Signal sig => snd (on_signal sig w)
  end.

Definition run (evs : list event) : world := fold_left step evs initial_world.

(** The worlds that some sequence of events leads to from process
    start.  The process ends with the first signal; the worlds that
    events after it would lead to are counted as well, so an invariant of
    [reachable] holds of every world the server really goes through. *)
Inductive reachable : world -> Prop :=
| reachable_start : reachable initial_world
| reachable_step w ev : reachable w -> reachable (step w ev).

(** Which [close] calls of a cleanup reject, given the trace before it:
    the lines that the loop writes to standard error. *)
Fixpoint close_failures (tr : list call) (entries : list (session_ref * handle))
  : list (session_ref * Error) :=
  match entries with
  | [] => []
  | (sessionId, browser) :: rest =>
      (match driver tr (Close browser) with
       | Resolved _ => []
       | Rejected e => [(sessionId, e)]
       end ++ close_failures (tr ++ [Close browser]) rest)%list
  end.

(** Pointer validity: a session id held by [currentSession] is a key of
    all three maps. *)
Definition pointer_valid (s : state) : Prop :=
  forall id, currentSession s = Id id ->
    JsMap.has (Id id) (browsers s) = true /\
    JsMap.has (Id id) (contexts s) = true /\
    JsMap.has (Id id) (pages s) = true.

(** [null] is never a key of a map. *)
Definition no_null_key (s : state) : Prop :=
  JsMap.has Null (browsers s) = false /\
  JsMap.has Null (contexts s) = false /\
  JsMap.has Null (pages s) = false.

(** A computation that leaves [state] as it found it. *)
Definition keeps_state {A : Type} (m : M A) : Prop :=
  forall w, st (snd (m w)) = st w.

(** The state after a session is registered under [sessionId]
    (lines 131-134). *)
Definition registered (sessionId : session_ref)
    (browserInstance context page : handle) (s : state) : state :=
  with_currentSession sessionId
    (with_pages (JsMap.set sessionId page)
       (with_contexts (JsMap.set sessionId context)
          (with_browsers (JsMap.set sessionId browserInstance) s))).

(** The state after the current session is forgotten (lines 597-601). *)
Definition forgotten (s : state) : state :=
  {| browsers := JsMap.delete (currentSession s) (browsers s);
     contexts := JsMap.delete (currentSession s) (contexts s);
     pages := JsMap.delete (currentSession s) (pages s);
     currentSession := Null |}.

(** The tool invocations whose success envelope carries the base64
    data: [take_screenshot] with a falsy [outputPath]. *)
Definition base64_reply (c : tool_call) : bool :=
  match c with
  | Take_screenshot outputPath _ => negb (str_truthy outputPath)
  | _ => false
  end.

Definition is_start_or_close (ev : event) : bool :=
  match ev with
  | Tool (Start_browser _ _) => true
  | Tool Close_session => true
  | _ => false
  end.

(** The page object that a call is made on; [None] for the calls that
    are not made on a page. *)
Definition call_page (c : call) : option handle :=
  match c with
  | Launch _ _ => None
  | NewContext _ _ => None
  | NewPage _ => None
  | DateNow => None
  | Goto page _ _ => Some page
  | Url page => Some page
  | Reload page => Some page
  | WaitForTimeout page _ => Some page
  | WaitForSelector page _ _ => Some page
  | Click page _ _ _ => Some page
  | Fill page _ _ _ => Some page
  | TextContent page _ _ => Some page
  | Hover page _ _ => Some page
  | DragAndDrop page _ _ _ => Some page
  | Dblclick page _ _ => Some page
  | KeyboardPress page _ => Some page
  | SetInputFiles page _ _ _ => Some page
  | Screenshot page _ _ _ => Some page
  | EvaluateBodyWithoutScripts page => Some page
  | Close _ => None
  end.

Definition is_close (c : call) : bool :=
  match c with
  | Close _ => true
  | _ => false
  end.

(** A session id as line 130 builds it. *)
Definition generated_id (r : session_ref) : Prop :=
  exists (b : browser_kind) (now : number),
    r = Id (browser_name b ++ "_" ++ num_to_string now).

(** An optional string with the empty string taken for absent. *)
Definition drop_blank (o : option string) : option string :=
  match o with
  | Some "" => None
  | _ => o
  end.

(** Browser options with the empty strings taken for absent. *)
Definition without_blanks (o : browser_options) : browser_options :=
  {| opt_headless := opt_headless o;
     opt_viewport := opt_viewport o;
     opt_userAgent := drop_blank (opt_userAgent o);
     opt_userDataDir := drop_blank (opt_userDataDir o);
     opt_channel := drop_blank (opt_channel o) |}.

(** The three maps hold the same keys in the same order. *)
Definition same_keys (s : state) : Prop :=
  JsMap.keys (browsers s) = JsMap.keys (contexts s) /\
  JsMap.keys (contexts s) = JsMap.keys (pages s).
End Handlers.

(* ------------------------------------------------------------------ *)
(** ** A concrete number type and concrete drivers

    Integers stand for the numbers of the examples; they are printed in
    decimal, as JavaScript prints integers below 10^21. *)
Definition ZNumber : JsNumber :=
  {| number := Z;
     num_lit := fun z => z;
     num_gt := Z.gtb;
     num_to_string := fun z => NilZero.string_of_int (Z.to_int z) |}.

(** The first eight bytes of a PNG file. *)
Definition png_signature : Buffer :=
  [Byte.x89; Byte.x50; Byte.x4e; Byte.x47; Byte.x0d; Byte.x0a; Byte.x1a;
   Byte.x0a].

Section Concrete.
#[local] Existing Instance ZNumber.

(** A browser that never fails.  Objects are numbered by the length of
    the trace at their creation; [clock] answers [Date.now]. *)
Definition obliging_driver (clock : list call -> Z) : driver_t :=
  fun tr c =>
    match c return result (resp c) with
    | Launch _ _ => Resolved (length tr)
    | NewContext _ _ => Resolved (length tr)
    | NewPage _ => Resolved (length tr)
    | DateNow => Resolved (clock tr)
    | Url _ => Resolved "https://example.com/"
    | TextContent _ _ _ => Resolved None
    | Screenshot _ _ _ _ => Resolved png_signature
    | EvaluateBodyWithoutScripts _ => Resolved "<body></body>"
    | Goto _ _ _ => Resolved tt
    | Reload _ => Resolved tt
    | WaitForTimeout _ _ => Resolved tt
    | WaitForSelector _ _ _ => Resolved tt
    | Click _ _ _ _ => Resolved tt
    | Fill _ _ _ _ => Resolved tt
    | Hover _ _ _ => Resolved tt
    | DragAndDrop _ _ _ _ => Resolved tt
    | Dblclick _ _ _ => Resolved tt
    | KeyboardPress _ _ => Resolved tt
    | SetInputFiles _ _ _ _ => Resolved tt
    | Close _ => Resolved tt
    end.

(** A clock that stands still. *)
Definition frozen_clock (tr : list call) : Z := 1000%Z.

(** A clock that advances with every call made. *)
Definition ticking_clock (tr : list call) : Z :=
  (1000 + Z.of_nat (length tr))%Z.

(** As [obliging_driver], except that closing browser [bad] rejects. *)
Definition stubborn_driver (bad : handle) : driver_t :=
  fun tr c =>
    match c return result (resp c) with
    | Close b =>
        if Nat.eqb b bad then Rejected (mkError "Target closed")
        else Resolved tt
    | c' => obliging_driver ticking_clock tr c'
    end.

(** The browser that never fails, with the ticking clock. *)
Definition drv : driver_t := obliging_driver ticking_clock.

(** One chromium session started, on a browser that never fails. *)
Definition one_session : world :=
  run drv [Tool (Start_browser chromium Undefined)].

(** The same session, closed again. *)
Definition closed_again : world :=
  step drv one_session (Tool Close_session).

(** One chromium session started while the clock stands still. *)
Definition frozen_session : world :=
  run (obliging_driver frozen_clock)
    [Tool (Start_browser chromium Undefined)].

(** A chromium session, then a firefox session, on the browser that
    never fails. *)
Definition second_session : world :=
  run drv
    [Tool (Start_browser chromium Undefined);
     Tool (Start_browser firefox NullOptions)].

(** One chromium session whose browser will refuse to close. *)
Definition stubborn_session : world :=
  run (stubborn_driver 0) [Tool (Start_browser chromium Undefined)].

(** As [obliging_driver], except that no browser context can be made. *)
Definition contextless_driver : driver_t :=
  fun tr c =>
    match c return result (resp c) with
    | NewContext _ _ => Rejected (mkError "Browser has been closed")
    | c' => obliging_driver ticking_clock tr c'
    end.

(** The world after a start_browser that failed at [newContext]. *)
Definition failed_start : world :=
  {| st := initial_state;
     trace :=
       [Launch chromium
          {| headless := false; args := None; channel := None |};
        NewContext 0 {| viewport := None; userAgent := None |}];
     stderr := [] |}.

(** As [obliging_driver], with elements that hold the text "Hello". *)
Definition hello_driver : driver_t :=
  fun tr c =>
    match c return result (resp c) with
    | TextContent _ _ _ => Resolved (Some "Hello")
    | c' => obliging_driver ticking_clock tr c'
    end.

(** A chromium and a firefox session; closing the first will fail. *)
Definition two_sessions : world :=
  run (stubborn_driver 0)
    [Tool (Start_browser chromium Undefined);
     Tool (Start_browser firefox NullOptions)].
End Concrete.

(* ------------------------------------------------------------------ *)
(** ** Facts about strings and maps *)

Lemma session_ref_eqb_spec a b : reflect (a = b) (session_ref_eqb a b).
Proof.
  destruct a as [|s], b as [|t]; simpl; try (constructor; congruence).
  destruct (String.eqb_spec s t); constructor; congruence.
Qed.

Lemma session_ref_eqb_refl a : session_ref_eqb a a = true.
Proof. destruct (session_ref_eqb_spec a a); congruence. Qed.

Module StringFacts.
Lemma length_app (s t : string) :
  String.length (s ++ t) = String.length s + String.length t.
Proof. induction s as [|a s IH]; simpl; [reflexivity | now rewrite IH]. Qed.

Lemma substring_all (s : string) : substring 0 (String.length s) s = s.
Proof. induction s as [|a s IH]; simpl; [reflexivity | now rewrite IH]. Qed.

Lemma substring_skip (pre s : string) :
  substring (String.length pre) (String.length s) (pre ++ s) = s.
Proof.
  induction pre as [|a pre IH]; simpl; [apply substring_all | exact IH].
Qed.

Lemma substring_split (n : nat) : forall s : string,
  n <= String.length s ->
  s = substring 0 n s ++ substring n (String.length s - n) s.
Proof.
  induction n as [|n IH]; intros s Hn.
  - rewrite Nat.sub_0_r, substring_all. now destruct s.
  - destruct s as [|a s]; simpl in *; [lia|].
    f_equal. apply IH. lia.
Qed.

(** [endsWith] holds exactly of the strings that have the suffix. *)
Lemma endsWith_spec (s suffix : string) :
  endsWith s suffix = true <-> exists pre, s = pre ++ suffix.
Proof.
  unfold endsWith. split.
  - destruct (Nat.leb_spec (String.length suffix) (String.length s))
      as [Hle|Hlt]; [|discriminate].
    intros E. apply String.eqb_eq in E.
    exists (substring 0 (String.length s - String.length suffix) s).
    pose proof (@substring_split
                  (String.length s - String.length suffix) s) as H.
    replace (String.length s - (String.length s - String.length suffix))
      with (String.length suffix) in H by lia.
    rewrite E in H. apply H. lia.
  - intros [pre ->]. rewrite length_app.
    destruct (Nat.leb_spec (String.length suffix)
                (String.length pre + String.length suffix)); [|lia].
    replace (String.length pre + String.length suffix - String.length suffix)
      with (String.length pre) by lia.
    rewrite substring_skip. apply String.eqb_refl.
Qed.
End StringFacts.

Module JsMapFacts.
Section WithValue.
Variable V : Type.
Implicit Types (m : JsMap.t V) (k : session_ref) (v : V).

Lemma get_set_same k v m : JsMap.get k (JsMap.set k v m) = Some v.
Proof.
  induction m as [|[k' v'] m IH]; simpl.
  - now rewrite session_ref_eqb_refl.
  - destruct (session_ref_eqb k k') eqn:E; simpl.
    + now rewrite session_ref_eqb_refl.
    + now rewrite E.
Qed.

Lemma get_set_other k k' v m :
  session_ref_eqb k' k = false ->
  JsMap.get k' (JsMap.set k v m) = JsMap.get k' m.
Proof.
  intros Hne. induction m as [|[k0 v0] m IH]; simpl.
  - now rewrite Hne.
  - destruct (session_ref_eqb k k0) eqn:E; simpl.
    + destruct (session_ref_eqb_spec k k0); [subst | discriminate].
      now rewrite Hne.
    + now rewrite IH.
Qed.

Lemma has_set_same k v m : JsMap.has k (JsMap.set k v m) = true.
Proof. unfold JsMap.has. now rewrite get_set_same. Qed.

Lemma has_set_mono k k' v m :
  JsMap.has k' m = true -> JsMap.has k' (JsMap.set k v m) = true.
Proof.
  destruct (session_ref_eqb k' k) eqn:E.
  - destruct (session_ref_eqb_spec k' k); [subst | discriminate].
    intros _. apply has_set_same.
  - unfold JsMap.has. now rewrite get_set_other.
Qed.

Lemma has_set_other k k' v m :
  session_ref_eqb k' k = false ->
  JsMap.has k' (JsMap.set k v m) = JsMap.has k' m.
Proof. intros E. unfold JsMap.has. now rewrite get_set_other. Qed.

Lemma keys_set_present k v m :
  JsMap.has k m = true -> JsMap.keys (JsMap.set k v m) = JsMap.keys m.
Proof.
  unfold JsMap.has, JsMap.keys.
  induction m as [|[k' v'] m IH]; simpl; [discriminate|].
  destruct (session_ref_eqb_spec k k'); simpl; intros H.
  - now subst.
  - now rewrite IH.
Qed.

Lemma get_delete_same k m : JsMap.get k (JsMap.delete k m) = None.
Proof.
  induction m as [|[k' v'] m IH]; simpl; [reflexivity|].
  destruct (session_ref_eqb k k') eqn:E; simpl; [assumption|].
  now rewrite E.
Qed.

Lemma has_delete_same k m : JsMap.has k (JsMap.delete k m) = false.
Proof. unfold JsMap.has. now rewrite get_delete_same. Qed.

Lemma get_delete_other k k' m :
  session_ref_eqb k' k = false ->
  JsMap.get k' (JsMap.delete k m) = JsMap.get k' m.
Proof.
  intros Hne. induction m as [|[k0 v0] m IH]; simpl; [reflexivity|].
  destruct (session_ref_eqb k k0) eqn:E; simpl.
  - destruct (session_ref_eqb_spec k k0); [subst | discriminate].
    now rewrite Hne.
  - now rewrite IH.
Qed.

Lemma has_delete_absent k k' m :
  JsMap.has k' m = false -> JsMap.has k' (JsMap.delete k m) = false.
Proof.
  destruct (session_ref_eqb k' k) eqn:E.
  - destruct (session_ref_eqb_spec k' k); [subst | discriminate].
    intros _. apply has_delete_same.
  - unfold JsMap.has. now rewrite get_delete_other.
Qed.

Lemma delete_absent k m :
  JsMap.has k m = false -> JsMap.delete k m = m.
Proof.
  unfold JsMap.has.
  induction m as [|[k' v'] m IH]; simpl; [reflexivity|].
  destruct (session_ref_eqb k k'); [discriminate|].
  intros H. now rewrite IH.
Qed.

Lemma get_absent k m : JsMap.has k m = false -> JsMap.get k m = None.
Proof. unfold JsMap.has. now destruct (JsMap.get k m). Qed.
End WithValue.
End JsMapFacts.

(* ------------------------------------------------------------------ *)
(** ** Facts about the handlers *)
Section Facts.
Context {Num : JsNumber}.
Variable driver : driver_t.

(** Case analysis on the next answer of the driver. *)
Ltac ask_driver :=
  match goal with
  | |- context [driver ?tr ?c] =>
      let E := fresh "Answer" in destruct (driver tr c) eqn:E; simpl
  end.

Ltac open_handler :=
  unfold try_catch, bind, getPage, get_state, modify_state, ret, throw,
    await, process_exit, console_error; simpl.

Lemma handle_tool_try_catch (c : tool_call) :
  handle_tool driver c =
  try_catch (try_block driver c)
    (fun e => ret (error_envelope (doing c) e)).
Proof. destruct c; reflexivity. Qed.

(** *** Computations that leave the state alone *)

Lemma keeps_ret {A} (a : A) : keeps_state (ret a).
Proof. intro w. reflexivity. Qed.

Lemma keeps_throw {A} (e : Error) : keeps_state (@throw _ A e).
Proof. intro w. reflexivity. Qed.

Lemma keeps_await (c : call) : keeps_state (await driver c).
Proof. intro w. unfold await. now destruct (driver (trace w) c). Qed.

Lemma keeps_get_state : keeps_state get_state.
Proof. intro w. reflexivity. Qed.

Lemma keeps_bind {A B} (m : M A) (k : A -> M B) :
  keeps_state m -> (forall a, keeps_state (k a)) -> keeps_state (bind m k).
Proof.
  intros Hm Hk w. unfold bind. specialize (Hm w).
  destruct (m w) as [[a|e|code] w']; simpl in *; try assumption.
  now rewrite Hk.
Qed.

Lemma keeps_try_catch {A} (m : M A) (h : Error -> M A) :
  keeps_state m -> (forall e, keeps_state (h e)) ->
  keeps_state (try_catch m h).
Proof.
  intros Hm Hh w. unfold try_catch. specialize (Hm w).
  destruct (m w) as [[a|e|code] w']; simpl in *; try assumption.
  now rewrite Hh.
Qed.

Lemma keeps_getPage : keeps_state getPage.
Proof.
  intro w. unfold getPage, bind, get_state.
  now destruct (JsMap.get _ _).
Qed.

Lemma getPage_no_session w :
  currentSession (st w) = Null ->
  JsMap.has Null (pages (st w)) = false ->
  getPage w = (Threw (mkError "No active browser session"), w).
Proof.
  intros Hnull Habsent. apply JsMapFacts.get_absent in Habsent.
  unfold getPage, bind, get_state. now rewrite Hnull, Habsent.
Qed.

Lemma getPage_found w page :
  JsMap.get (currentSession (st w)) (pages (st w)) = Some page ->
  getPage w = (Returned page, w).
Proof. intros H. unfold getPage, bind, get_state. now rewrite H. Qed.

Lemma getPage_cases w :
  (exists page, getPage w = (Returned page, w)) \/
  getPage w = (Threw (mkError "No active browser session"), w).
Proof.
  unfold getPage, bind, get_state.
  destruct (JsMap.get _ _); [left; eexists|right]; reflexivity.
Qed.

Lemma keeps_browser_status : keeps_state browser_status.
Proof. intro w. reflexivity. Qed.

Ltac frame :=
  repeat first
    [ apply keeps_ret
    | apply keeps_throw
    | match goal with
      | |- keeps_state (await _ ?c) => exact (keeps_await c)
      end
    | apply keeps_getPage
    | apply keeps_get_state
    | apply keeps_bind; [| intro]
    | apply keeps_try_catch; [| intro]
    | match goal with
      | |- keeps_state (if ?b then _ else _) => destruct b
      end ].

Lemma page_tools_keep_state (c : tool_call) :
  requires_page c = true -> keeps_state (handle_tool driver c).
Proof.
  destruct c; simpl; try discriminate; intros _;
    unfold navigate, navigate_try, get_current_url, get_current_url_try,
      refresh_browser, refresh_browser_try, sleep, sleep_try,
      find_element, find_element_try, click_element, click_element_try,
      send_keys, send_keys_try, get_element_text, get_element_text_try,
      hover, hover_try, drag_and_drop, drag_and_drop_try,
      double_click, double_click_try, right_click, right_click_try,
      press_key, press_key_try, upload_file, upload_file_try,
      take_screenshot, take_screenshot_try,
      get_page_source, get_page_source_try;
    frame.
Qed.

(** *** What start_browser and close_session do to the state *)

Lemma start_browser_state b o w :
  st (snd (start_browser driver b o w)) = st w \/
  exists id browserInstance context page,
    st (snd (start_browser driver b o w)) =
    registered (Id id) browserInstance context page (st w).
Proof.
  unfold start_browser, start_browser_try. open_handler.
  destruct b; ask_driver; auto; ask_driver; auto; ask_driver; auto;
    ask_driver; auto; right; do 4 eexists; reflexivity.
Qed.

Lemma close_session_state w :
  st (snd (close_session driver w)) = st w \/
  st (snd (close_session driver w)) = forgotten (st w).
Proof.
  unfold close_session, close_session_try. open_handler.
  destruct (JsMap.get (currentSession (st w)) (browsers (st w))); simpl.
  - ask_driver; auto.
  - auto.
Qed.

(** *** The cleanup loop *)

Lemma cleanup_loop_run entries : forall w,
  cleanup_loop driver entries w =
  (Returned tt,
   {| st := st w;
      trace := (trace w ++ map (fun e => Close (snd e)) entries)%list;
      stderr := (stderr w ++ close_failures driver (trace w) entries)%list |}).
Proof.
  induction entries as [|[sessionId browser] rest IH]; intro w; simpl.
  - unfold ret. rewrite !app_nil_r. now destruct w.
  - unfold bind, try_catch, await, console_error.
    destruct (driver (trace w) (Close browser)) as [[]|e]; rewrite IH; simpl;
      now rewrite <- !app_assoc.
Qed.

Lemma cleanup_run w :
  cleanup driver w =
  (Exited 0,
   {| st := initial_state;
      trace :=
        (trace w ++ map (fun e => Close (snd e)) (browsers (st w)))%list;
      stderr :=
        (stderr w ++ close_failures driver (trace w) (browsers (st w)))%list
   |}).
Proof.
  unfold cleanup, bind, get_state. rewrite cleanup_loop_run. reflexivity.
Qed.

(** *** Invariants of the registry *)

Lemma initial_no_null_key : no_null_key initial_state.
Proof. repeat split. Qed.

Lemma initial_pointer_valid : pointer_valid initial_state.
Proof. intros id H. discriminate. Qed.

Lemma registered_no_null_key id b c p s :
  no_null_key s -> no_null_key (registered (Id id) b c p s).
Proof.
  intros (Hb & Hc & Hp). unfold no_null_key, registered; simpl.
  rewrite !JsMapFacts.has_set_other by reflexivity. auto.
Qed.

Lemma registered_pointer_valid id b c p s :
  pointer_valid (registered (Id id) b c p s).
Proof.
  intros id' H. simpl in H. injection H as <-. simpl.
  rewrite !JsMapFacts.has_set_same. auto.
Qed.

Lemma forgotten_no_null_key s : no_null_key s -> no_null_key (forgotten s).
Proof.
  intros (Hb & Hc & Hp). unfold no_null_key, forgotten; simpl.
  auto using JsMapFacts.has_delete_absent.
Qed.

Lemma forgotten_pointer_valid s : pointer_valid (forgotten s).
Proof. intros id H. discriminate. Qed.

Lemma step_state w ev :
  st (step driver w ev) = st w \/
  (exists id b c p, st (step driver w ev) = registered (Id id) b c p (st w)) \/
  st (step driver w ev) = forgotten (st w) \/
  st (step driver w ev) = initial_state.
Proof.
  destruct ev as [c| |sig]; simpl.
  - destruct (requires_page c) eqn:R.
    + left. now apply page_tools_keep_state.
    + destruct c; try discriminate; simpl.
      * destruct (start_browser_state browser (browserOptionsSchema options) w)
          as [H|H]; auto.
      * destruct (close_session_state w) as [H|H]; auto.
  - auto.
  - right; right; right. destruct sig; simpl; now rewrite cleanup_run.
Qed.

Lemma reachable_invariant w :
  reachable driver w -> no_null_key (st w) /\ pointer_valid (st w).
Proof.
  induction 1 as [|w ev Hw [Hn Hp]].
  - split; [apply initial_no_null_key | apply initial_pointer_valid].
  - destruct (step_state w ev) as [E|[(id & b & c & p & E)|[E|E]]];
      rewrite E; split;
      auto using registered_no_null_key, registered_pointer_valid,
        forgotten_no_null_key, forgotten_pointer_valid,
        initial_no_null_key, initial_pointer_valid.
Qed.

Lemma reachable_run evs : reachable driver (run driver evs).
Proof.
  unfold run. generalize (@reachable_start _ driver).
  generalize initial_world.
  induction evs as [|ev evs IH]; intros w Hw; simpl; [assumption|].
  apply IH. now constructor.
Qed.
End Facts.

(* ------------------------------------------------------------------ *)
(** ** Properties of the specification *)
Section Claims.
Context {Num : JsNumber}.
Variable driver : driver_t.

Ltac unfold_page_tools :=
  unfold navigate, navigate_try, get_current_url, get_current_url_try,
    refresh_browser, refresh_browser_try, sleep, sleep_try,
    find_element, find_element_try, click_element, click_element_try,
    send_keys, send_keys_try, get_element_text, get_element_text_try,
    hover, hover_try, drag_and_drop, drag_and_drop_try,
    double_click, double_click_try, right_click, right_click_try,
    press_key, press_key_try, upload_file, upload_file_try,
    take_screenshot, take_screenshot_try,
    get_page_source, get_page_source_try.

Ltac unfold_page_tools_in E :=
  unfold navigate_try, get_current_url_try, refresh_browser_try, sleep_try,
    find_element_try, click_element_try, send_keys_try,
    get_element_text_try, hover_try, drag_and_drop_try, double_click_try,
    right_click_try, press_key_try, upload_file_try, take_screenshot_try,
    get_page_source_try in E.

(** Case analysis on every test that the run recorded in [E] went
    through, innermost first. *)
Ltac crunch E :=
  repeat
    (match type of E with
     | context [match ?x with _ => _ end] =>
         lazymatch x with
         | context [match _ with _ => _ end] => fail
         | _ => destruct x eqn:?
         end
     end; simpl in E).

(** C1. In any world the server can reach, a tool that needs the active
    page, called while [currentSession] is [null], answers with the
    failure envelope of its [catch] block around the message
    "No active browser session"; the world after the call is the world
    before it, so the trace has no new call and the three maps are
    untouched. *)
Theorem page_tool_without_session (c : tool_call) (w : world) :
  reachable driver w ->
  requires_page c = true ->
  currentSession (st w) = Null ->
  handle_tool driver c w =
    (Returned
       (error_envelope (doing c) (mkError "No active browser session")), w)
  /\ no_active_session_flavored
       (error_envelope (doing c) (mkError "No active browser session"))
     = true.
Proof.
  intros Hreach Hreq Hnull.
  destruct (reachable_invariant Hreach) as [(_ & _ & Hpages) _].
  pose proof (getPage_no_session w Hnull Hpages) as Hthrow.
  destruct c; try discriminate; simpl; unfold_page_tools;
    unfold try_catch, bind; rewrite Hthrow; split; reflexivity.
Qed.

(** C4. In every world reachable by tool calls, status reads and
    termination signals, a session id held by [currentSession] is a key
    of [browsers], of [contexts] and of [pages]. *)
Theorem pointer_never_dangles (w : world) (id : string) :
  reachable driver w ->
  currentSession (st w) = Id id ->
  JsMap.has (Id id) (browsers (st w)) = true /\
  JsMap.has (Id id) (contexts (st w)) = true /\
  JsMap.has (Id id) (pages (st w)) = true.
Proof.
  intros Hreach Hptr.
  destruct (reachable_invariant Hreach) as [_ Hvalid].
  exact (Hvalid id Hptr).
Qed.

(** C6. On SIGINT or SIGTERM the cleanup calls [close] on the browser of
    every entry of [browsers], in order, whatever the earlier [close]
    calls answered; each rejection is written to standard error with its
    session id; then the three maps are empty, [currentSession] is
    [null], and the process exits with status 0. *)
Theorem shutdown_closes_every_session (sig : signal) (w : world) :
  on_signal driver sig w =
  (Exited 0,
   {| st := initial_state;
      trace :=
        (trace w
           ++ map (fun entry => Close (snd entry)) (browsers (st w)))%list;
      stderr :=
        (stderr w ++ close_failures driver (trace w) (browsers (st w)))%list
   |}).
Proof. destruct sig; simpl; apply cleanup_run. Qed.

(** C10. When the page is resolved and [textContent] resolves to [null],
    get_element_text returns the envelope whose single text block is the
    empty string, after that one driver call. *)
Theorem get_element_text_of_null (selector : string) (timeout : option number)
    (w : world) (page : handle) :
  JsMap.get (currentSession (st w)) (pages (st w)) = Some page ->
  driver (trace w)
    (TextContent page selector (or_default timeout (num_lit 10000)))
  = Resolved None ->
  get_element_text driver selector timeout w =
  (Returned {| content := [text_block ""] |},
   {| st := st w;
      trace :=
        (trace w
           ++ [TextContent page selector
                 (or_default timeout (num_lit 10000))])%list;
      stderr := stderr w |}).
Proof.
  intros Hpage Hnull.
  unfold get_element_text, get_element_text_try, try_catch, bind.
  rewrite (getPage_found w Hpage). unfold await. rewrite Hnull. reflexivity.
Qed.

(** C2. close_session twice in a row, the browser closing without
    error. The first call does what the sentence says: it reports
    "Browser session id closed", removes [id] from the three maps and sets
    [currentSession] to [null]. The second call makes no driver call and
    changes nothing, and there the code departs from the sentence: it
    answers "Browser session null closed", the text of a closure with the
    [null] pointer printed into it, which does not report the absence of a
    session, while in the same world the status resource answers
    "No active browser session" and [getPage] throws that message. *)
Theorem close_session_then_again (w : world) (id : string) (browser : handle) :
  reachable driver w ->
  currentSession (st w) = Id id ->
  JsMap.get (Id id) (browsers (st w)) = Some browser ->
  driver (trace w) (Close browser) = Resolved tt ->
  let w1 :=
    {| st := forgotten (st w);
       trace := (trace w ++ [Close browser])%list;
       stderr := stderr w |} in
  close_session driver w =
    (Returned
       {| content := [text_block ("Browser session " ++ id ++ " closed")] |},
     w1)
  /\ currentSession (st w1) = Null
  /\ JsMap.has (Id id) (browsers (st w1)) = false
  /\ JsMap.has (Id id) (contexts (st w1)) = false
  /\ JsMap.has (Id id) (pages (st w1)) = false
  /\ close_session driver w1 =
       (Returned {| content := [text_block "Browser session null closed"] |},
        w1)
  /\ no_active_session_flavored
       {| content := [text_block "Browser session null closed"] |} = false
  /\ browser_status w1 = (Returned "No active browser session", w1)
  /\ getPage w1 = (Threw (mkError "No active browser session"), w1).
Proof.
  intros Hreach Hptr Hget Hclose w1.
  destruct (reachable_invariant Hreach) as [Hnn _].
  apply forgotten_no_null_key in Hnn. destruct Hnn as (Hb & Hc & Hp).
  repeat split.
  - unfold close_session, close_session_try, try_catch, bind, get_state.
    rewrite Hptr, Hget. unfold await. rewrite Hclose. simpl.
    unfold w1, forgotten. rewrite Hptr. reflexivity.
  - unfold w1, forgotten; simpl. rewrite Hptr. apply JsMapFacts.has_delete_same.
  - unfold w1, forgotten; simpl. rewrite Hptr. apply JsMapFacts.has_delete_same.
  - unfold w1, forgotten; simpl. rewrite Hptr. apply JsMapFacts.has_delete_same.
  - unfold close_session, close_session_try, try_catch, bind, get_state.
    change (st w1) with (forgotten (st w)).
    change (currentSession (forgotten (st w))) with Null.
    rewrite (JsMapFacts.get_absent _ _ Hb). simpl.
    unfold with_currentSession, with_pages, with_contexts, with_browsers;
      simpl.
    unfold forgotten in Hb, Hc, Hp; simpl in Hb, Hc, Hp.
    rewrite (JsMapFacts.delete_absent _ _ Hb),
      (JsMapFacts.delete_absent _ _ Hc), (JsMapFacts.delete_absent _ _ Hp).
    reflexivity.
  - apply getPage_no_session; [reflexivity | exact Hp].
Qed.

(** C3, as the code has it. Whatever the tool and the driver: if the
    [try] block throws [e], the handler returns the one-block envelope
    "Error <doing>: <message of e>"; if it returns, the handler returns
    that envelope, all of whose blocks are text blocks, and it has one
    block, except for take_screenshot with a falsy [outputPath], where it
    has two (the caption and the base64 data). No handler exits. *)
Theorem envelope_shape (c : tool_call) (w : world) :
  match try_block driver c w with
  | (Returned env, w') =>
      handle_tool driver c w = (Returned env, w') /\
      Forall is_text (content env) /\
      List.length (content env) = (if base64_reply c then 2 else 1)
  | (Threw e, w') =>
      handle_tool driver c w = (Returned (error_envelope (doing c) e), w') /\
      List.length (content (error_envelope (doing c) e)) = 1
  | (Exited _, _) => False
  end.
Proof.
  rewrite handle_tool_try_catch. unfold try_catch.
  destruct (try_block driver c w) as [[env|e|code] w'] eqn:E.
  - split; [reflexivity|].
    destruct c; simpl in E; unfold_page_tools_in E;
      unfold start_browser_try, close_session_try in E;
      unfold bind, await, ret, modify_state, get_state in E; simpl in E;
      crunch E; try discriminate;
      injection E as <- <-; simpl; repeat constructor;
      match goal with
      | H : str_truthy _ = _ |- _ => rewrite H; reflexivity
      end.
  - split; reflexivity.
  - destruct c; simpl in E; unfold_page_tools_in E;
      unfold start_browser_try, close_session_try in E;
      unfold bind, await, ret, modify_state, get_state in E; simpl in E;
      try (destruct (getPage_cases w) as [[page Hg]|Hg]; rewrite Hg in E;
           simpl in E);
      crunch E; discriminate.
Qed.

(** C5, as the code has it. start_browser does not look the generated id
    up before it stores the session: when the id is already a key and the
    driver calls succeed, the call reports success, the three entries of
    that id now hold the new browser, context and page, and [browsers] has
    the same keys as before. *)
Theorem start_browser_overwrites (b : browser_kind) (o : options_arg)
    (w : world) (browserInstance context page : handle) (now : number) :
  let options := default_options (browserOptionsSchema o) in
  let lo := make_launchOptions options in
  let co := make_contextOptions options in
  let sessionId := Id (browser_name b ++ "_" ++ num_to_string now) in
  JsMap.has sessionId (browsers (st w)) = true ->
  driver (trace w) (Launch b lo) = Resolved browserInstance ->
  driver (trace w ++ [Launch b lo])%list (NewContext browserInstance co)
    = Resolved context ->
  driver (trace w ++ [Launch b lo; NewContext browserInstance co])%list
    (NewPage context) = Resolved page ->
  driver
    (trace w
       ++ [Launch b lo; NewContext browserInstance co; NewPage context])%list
    DateNow = Resolved now ->
  handle_tool driver (Start_browser b o) w =
    (Returned
       {| content :=
            [text_block
               ("Browser started with session_id: " ++ show_ref sessionId)] |},
     {| st := registered sessionId browserInstance context page (st w);
        trace :=
          (trace w
             ++ [Launch b lo; NewContext browserInstance co; NewPage context;
                 DateNow])%list;
        stderr := stderr w |})
  /\ JsMap.get sessionId
       (browsers (registered sessionId browserInstance context page (st w)))
     = Some browserInstance
  /\ JsMap.get sessionId
       (contexts (registered sessionId browserInstance context page (st w)))
     = Some context
  /\ JsMap.get sessionId
       (pages (registered sessionId browserInstance context page (st w)))
     = Some page
  /\ JsMap.keys
       (browsers (registered sessionId browserInstance context page (st w)))
     = JsMap.keys (browsers (st w)).
Proof.
  intros options lo co sessionId Hhas Hlaunch Hcontext Hpage Hnow.
  repeat split.
  - simpl. unfold start_browser, start_browser_try, try_catch, bind, await.
    fold options. fold lo. fold co.
    assert (Hl : match b with
                 | chromium => driver (trace w) (Launch chromium lo)
                 | firefox => driver (trace w) (Launch firefox lo)
                 | webkit => driver (trace w) (Launch webkit lo)
                 end = Resolved browserInstance) by (now destruct b).
    assert (Hpage' :
              driver ((trace w ++ [Launch b lo])
                        ++ [NewContext browserInstance co])%list
                (NewPage context) = Resolved page)
      by (rewrite <- app_assoc; exact Hpage).
    assert (Hnow' :
              driver (((trace w ++ [Launch b lo])
                         ++ [NewContext browserInstance co])
                        ++ [NewPage context])%list
                DateNow = Resolved now)
      by (rewrite <- !app_assoc; exact Hnow).
    replace (trace w
               ++ [Launch b lo; NewContext browserInstance co;
                   NewPage context; DateNow])%list
      with ((((trace w ++ [Launch b lo])
                ++ [NewContext browserInstance co])
               ++ [NewPage context]) ++ [DateNow])%list
      by (rewrite <- !app_assoc; reflexivity).
    destruct b; simpl in *; rewrite Hl; simpl; rewrite Hcontext; simpl;
      rewrite Hpage'; simpl; rewrite Hnow'; reflexivity.
  - simpl. apply JsMapFacts.get_set_same.
  - simpl. apply JsMapFacts.get_set_same.
  - simpl. apply JsMapFacts.get_set_same.
  - simpl. now apply JsMapFacts.keys_set_present.
Qed.

(** C7, as the code has it. With the page resolved and the screenshot
    taken, take_screenshot makes one driver call, which carries
    [outputPath] as the path to write and asks for JPEG exactly when
    [outputPath] is a string that ends in ".jpg" and for PNG otherwise;
    the envelope reports the path when [outputPath] is a non-empty string,
    and holds the caption and the base64 text of the image bytes when
    [outputPath] is absent or the empty string. *)
Theorem take_screenshot_reply (outputPath : option string)
    (fullPage : option bool) (w : world) (page : handle) (image : Buffer) :
  let format :=
    match outputPath with
    | Some p => if endsWith p ".jpg" then jpeg else png
    | None => png
    end in
  let request :=
    Screenshot page outputPath (or_default fullPage false) format in
  JsMap.get (currentSession (st w)) (pages (st w)) = Some page ->
  driver (trace w) request = Resolved image ->
  take_screenshot driver outputPath fullPage w =
    (Returned
       match outputPath with
       | Some (String a p) =>
           {| content :=
                [text_block ("Screenshot saved to " ++ String a p)] |}
       | _ =>
           {| content :=
                [text_block "Screenshot captured as base64:";
                 text_block (base64 image)] |}
       end,
     {| st := st w; trace := (trace w ++ [request])%list; stderr := stderr w |})
  /\ (format = jpeg <->
      exists pre, outputPath = Some (pre ++ ".jpg")).
Proof.
  intros format request Hpage Hshot. split.
  - unfold take_screenshot, take_screenshot_try, try_catch, bind.
    rewrite (getPage_found w Hpage). unfold await.
    change (Screenshot page outputPath (or_default fullPage false)
              (screenshot_type outputPath)) with request.
    rewrite Hshot.
    destruct outputPath as [[|a p]|]; reflexivity.
  - unfold format. destruct outputPath as [p|].
    + destruct (endsWith p ".jpg") eqn:E.
      * apply StringFacts.endsWith_spec in E. destruct E as [pre ->].
        split; [intros _; now exists pre | reflexivity].
      * split; [discriminate|]. intros [pre [= ->]].
        assert (endsWith (pre ++ ".jpg") ".jpg" = true)
          by (apply StringFacts.endsWith_spec; now exists pre).
        congruence.
    + split; [discriminate|]. intros [pre H]. discriminate.
Qed.


(** C9, as the code has it. An event that changes [currentSession] is a
    start_browser call, which leaves a session id in it, or a
    close_session call or a termination signal, which leave [null] in it;
    every other tool and the status resource leave it as it was. *)
Theorem pointer_writers (w : world) (ev : event) :
  currentSession (st (step driver w ev)) <> currentSession (st w) ->
  (exists b o id,
      ev = Tool (Start_browser b o) /\
      currentSession (st (step driver w ev)) = Id id)
  \/ (ev = Tool Close_session /\
      currentSession (st (step driver w ev)) = Null)
  \/ (exists sig,
      ev = Signal sig /\ currentSession (st (step driver w ev)) = Null).
Proof.
  intros Hchanged. destruct ev as [c| |sig].
  - destruct (requires_page c) eqn:R.
    + exfalso. apply Hchanged. simpl.
      now rewrite (page_tools_keep_state driver c R w).
    + destruct c; try discriminate; simpl in *.
      * left. exists browser, options.
        destruct (start_browser_state driver browser
                    (browserOptionsSchema options) w)
          as [E|(id & bi & ctx & pg & E)]; rewrite E in *.
        -- now contradiction Hchanged.
        -- now exists id.
      * right; left. split; [reflexivity|].
        destruct (close_session_state driver w) as [E|E]; rewrite E in *.
        -- now contradiction Hchanged.
        -- reflexivity.
  - now contradiction Hchanged.
  - right; right. exists sig. split; [reflexivity|].
    destruct sig; simpl; now rewrite cleanup_run.
Qed.
End Claims.

(* ------------------------------------------------------------------ *)
(** ** Concrete runs *)
Section Runs.
#[local] Existing Instance ZNumber.

Lemma one_session_reachable : reachable drv one_session.
Proof. apply reachable_run. Qed.

Lemma closed_again_reachable : reachable drv closed_again.
Proof. apply reachable_step, one_session_reachable. Qed.

Example base64_three_bytes : base64 [Byte.x4d; Byte.x61; Byte.x6e] = "TWFu".
Proof. reflexivity. Qed.

Example base64_two_bytes : base64 [Byte.x4d; Byte.x61] = "TWE=".
Proof. reflexivity. Qed.

Example base64_one_byte : base64 [Byte.x4d] = "TQ==".
Proof. reflexivity. Qed.

Example one_session_state :
  st one_session =
  {| browsers := [(Id "chromium_1003", 0)];
     contexts := [(Id "chromium_1003", 1)];
     pages := [(Id "chromium_1003", 2)];
     currentSession := Id "chromium_1003" |}.
Proof. reflexivity. Qed.

(** Two sessions; closing the first browser fails, the second is closed
    all the same, and the state is cleared. *)
Example shutdown_with_failing_close :
  on_signal (stubborn_driver 0) SIGTERM two_sessions =
  (Exited 0,
   {| st := initial_state;
      trace := (trace two_sessions ++ [Close 0; Close 4])%list;
      stderr := [(Id "chromium_1003", mkError "Target closed")] |}).
Proof. reflexivity. Qed.

Lemma page_tool_without_session_witness :
  reachable drv closed_again /\
  requires_page (Navigate "https://example.com" None) = true /\
  currentSession (st closed_again) = Null /\
  handle_tool drv (Navigate "https://example.com" None) closed_again =
  (Returned
     {| content :=
          [text_block "Error navigating: No active browser session"] |},
   closed_again).
Proof.
  assert (H1 : reachable drv closed_again)
    by (apply reachable_step, reachable_run).
  assert (H2 : requires_page (Navigate "https://example.com" None) = true)
    by reflexivity.
  assert (H3 : currentSession (st closed_again) = Null) by reflexivity.
  split; [exact H1|]. split; [exact H2|]. split; [exact H3|].
  exact (proj1 (page_tool_without_session
                  (Navigate "https://example.com" None) H1 H2 H3)).
Defined.

Lemma pointer_never_dangles_witness :
  reachable drv one_session /\
  currentSession (st one_session) = Id "chromium_1003" /\
  JsMap.has (Id "chromium_1003") (browsers (st one_session)) = true /\
  JsMap.has (Id "chromium_1003") (contexts (st one_session)) = true /\
  JsMap.has (Id "chromium_1003") (pages (st one_session)) = true.
Proof.
  assert (H1 : reachable drv one_session) by apply reachable_run.
  assert (H2 : currentSession (st one_session) = Id "chromium_1003")
    by reflexivity.
  split; [exact H1|]. split; [exact H2|].
  exact (pointer_never_dangles H1 H2).
Defined.

Lemma get_element_text_of_null_witness :
  JsMap.get (currentSession (st one_session)) (pages (st one_session))
    = Some 2 /\
  drv (trace one_session) (TextContent 2 "#empty" 10000%Z) = Resolved None /\
  get_element_text drv "#empty" None one_session =
  (Returned {| content := [text_block ""] |},
   {| st := st one_session;
      trace := (trace one_session ++ [TextContent 2 "#empty" 10000%Z])%list;
      stderr := [] |}).
Proof.
  assert (H1 : JsMap.get (currentSession (st one_session))
                 (pages (st one_session)) = Some 2) by reflexivity.
  assert (H2 : drv (trace one_session)
                 (TextContent 2 "#empty" (or_default None (num_lit 10000)))
               = Resolved None) by reflexivity.
  split; [exact H1|]. split; [exact H2|].
  exact (@get_element_text_of_null _ drv "#empty" None one_session 2 H1 H2).
Defined.

Lemma close_session_then_again_witness :
  reachable drv one_session /\
  currentSession (st one_session) = Id "chromium_1003" /\
  JsMap.get (Id "chromium_1003") (browsers (st one_session)) = Some 0 /\
  drv (trace one_session) (Close 0) = Resolved tt /\
  close_session drv one_session =
    (Returned
       {| content := [text_block "Browser session chromium_1003 closed"] |},
     closed_again) /\
  close_session drv closed_again =
    (Returned {| content := [text_block "Browser session null closed"] |},
     closed_again) /\
  browser_status closed_again =
    (Returned "No active browser session", closed_again).
Proof.
  assert (H1 : reachable drv one_session) by apply reachable_run.
  assert (H2 : currentSession (st one_session) = Id "chromium_1003")
    by reflexivity.
  assert (H3 : JsMap.get (Id "chromium_1003") (browsers (st one_session))
               = Some 0) by reflexivity.
  assert (H4 : drv (trace one_session) (Close 0) = Resolved tt)
    by reflexivity.
  pose proof (close_session_then_again H1 H2 H3 H4)
    as (Hfirst & _ & _ & _ & _ & Hsecond & _ & Hstatus & _).
  split; [exact H1|]. split; [exact H2|]. split; [exact H3|].
  split; [exact H4|]. split; [exact Hfirst|].
  split; [exact Hsecond | exact Hstatus].
Defined.

Lemma start_browser_overwrites_witness :
  JsMap.has (Id "chromium_1000") (browsers (st frozen_session)) = true /\
  JsMap.get (Id "chromium_1000") (browsers (st frozen_session)) = Some 0 /\
  handle_tool (obliging_driver frozen_clock)
    (Start_browser chromium Undefined) frozen_session =
  (Returned
     {| content :=
          [text_block "Browser started with session_id: chromium_1000"] |},
   {| st :=
        {| browsers := [(Id "chromium_1000", 4)];
           contexts := [(Id "chromium_1000", 5)];
           pages := [(Id "chromium_1000", 6)];
           currentSession := Id "chromium_1000" |};
      trace :=
        (trace frozen_session
           ++ [Launch chromium
                 {| headless := false; args := None; channel := None |};
               NewContext 4 {| viewport := None; userAgent := None |};
               NewPage 5; DateNow])%list;
      stderr := [] |}).
Proof.
  split; [reflexivity|]. split; [reflexivity|].
  refine (proj1 (@start_browser_overwrites _ (obliging_driver frozen_clock)
                   chromium Undefined frozen_session 4 5 6 1000%Z
                   _ _ _ _ _)); reflexivity.
Defined.

Lemma take_screenshot_reply_witness :
  JsMap.get (currentSession (st one_session)) (pages (st one_session))
    = Some 2 /\
  drv (trace one_session) (Screenshot 2 (Some "shot.jpg") false jpeg)
    = Resolved png_signature /\
  take_screenshot drv (Some "shot.jpg") None one_session =
  (Returned {| content := [text_block "Screenshot saved to shot.jpg"] |},
   {| st := st one_session;
      trace :=
        (trace one_session ++ [Screenshot 2 (Some "shot.jpg") false jpeg])%list;
      stderr := [] |}).
Proof.
  assert (H1 : JsMap.get (currentSession (st one_session))
                 (pages (st one_session)) = Some 2) by reflexivity.
  assert (H2 : drv (trace one_session)
                 (Screenshot 2 (Some "shot.jpg") false jpeg)
               = Resolved png_signature) by reflexivity.
  split; [exact H1|]. split; [exact H2|].
  exact (proj1 (@take_screenshot_reply _ drv (Some "shot.jpg") None
                  one_session 2 png_signature H1 H2)).
Defined.

Lemma pointer_writers_witness :
  currentSession (st (step drv one_session (Signal SIGINT)))
    <> currentSession (st one_session) /\
  ((exists b o id,
       Signal SIGINT = Tool (Start_browser b o) /\
       currentSession (st (step drv one_session (Signal SIGINT))) = Id id)
   \/ (Signal SIGINT = Tool Close_session /\
       currentSession (st (step drv one_session (Signal SIGINT))) = Null)
   \/ (exists sig,
       Signal SIGINT = Signal sig /\
       currentSession (st (step drv one_session (Signal SIGINT))) = Null)).
Proof.
  assert (H : currentSession (st (step drv one_session (Signal SIGINT)))
              <> currentSession (st one_session))
    by (vm_compute; discriminate).
  split; [exact H|].
  exact (@pointer_writers _ drv one_session (Signal SIGINT) H).
Defined.

(** *** Where the sentences of the specification fail *)

(** close_session with no active session reports the closing of session
    "null", not the absence of a session. *)
Lemma close_session_twice_cex :
  currentSession (st closed_again) = Null /\
  close_session drv closed_again =
    (Returned {| content := [text_block "Browser session null closed"] |},
     closed_again) /\
  no_active_session_flavored
    {| content := [text_block "Browser session null closed"] |} = false.
Proof. split; [|split]; reflexivity. Qed.

(** C3: take_screenshot without [outputPath] succeeds with two content
    blocks. *)
Lemma screenshot_two_blocks_cex :
  try_block drv (Take_screenshot None None) one_session =
    handle_tool drv (Take_screenshot None None) one_session /\
  fst (handle_tool drv (Take_screenshot None None) one_session) =
    Returned
      {| content :=
           [text_block "Screenshot captured as base64:";
            text_block "iVBORw0KGgo="] |} /\
  List.length
    (content
       {| content :=
            [text_block "Screenshot captured as base64:";
             text_block "iVBORw0KGgo="] |}) <> 1.
Proof. split; [|split]; [reflexivity | reflexivity | discriminate]. Qed.

(** C5: a second start_browser that generates an id already in the
    registry succeeds and replaces the entry. *)
Lemma duplicate_session_id_cex :
  JsMap.get (Id "chromium_1000") (browsers (st frozen_session)) = Some 0 /\
  fst (handle_tool (obliging_driver frozen_clock)
         (Start_browser chromium Undefined) frozen_session) =
    Returned
      {| content :=
           [text_block "Browser started with session_id: chromium_1000"] |} /\
  browsers
    (st (snd (handle_tool (obliging_driver frozen_clock)
                (Start_browser chromium Undefined) frozen_session)))
    = [(Id "chromium_1000", 4)].
Proof. split; [|split]; reflexivity. Qed.

(** C7: with the empty string as [outputPath] the path is supplied, yet
    the envelope holds the base64 data and reports no path. *)
Lemma empty_output_path_cex :
  fst (take_screenshot drv (Some "") None one_session) =
    Returned
      {| content :=
           [text_block "Screenshot captured as base64:";
            text_block "iVBORw0KGgo="] |} /\
  fst (take_screenshot drv (Some "") None one_session) <>
    Returned {| content := [text_block ("Screenshot saved to " ++ "")] |}.
Proof. split; [reflexivity | discriminate]. Qed.

(** C9: the cleanup handler, which is neither start_browser nor
    close_session, assigns [currentSession]. *)
Lemma signal_clears_pointer_cex :
  reachable drv one_session /\
  is_start_or_close (Signal SIGINT) = false /\
  currentSession (st one_session) = Id "chromium_1003" /\
  currentSession (st (step drv one_session (Signal SIGINT))) = Null.
Proof.
  split; [apply reachable_run|]. split; [|split]; reflexivity.
Qed.
End Runs.

(* ------------------------------------------------------------------ *)
(** ** More facts about maps and strings *)
Module JsMapKeys.
Section WithValue.
Variable V : Type.
Implicit Types (m : JsMap.t V) (k : session_ref) (v : V).

Lemma delete_set_fresh k v m :
  JsMap.has k m = false -> JsMap.delete k (JsMap.set k v m) = m.
Proof.
  unfold JsMap.has.
  induction m as [|[k' v'] m IH]; simpl.
  - now rewrite session_ref_eqb_refl.
  - destruct (session_ref_eqb k k') eqn:E; [discriminate|].
    intros H. simpl. rewrite E. now rewrite IH.
Qed.

End WithValue.

Lemma keys_set_agree (A B : Type) k (a : A) (b : B) :
  forall (m : JsMap.t A) (n : JsMap.t B),
    JsMap.keys m = JsMap.keys n ->
    JsMap.keys (JsMap.set k a m) = JsMap.keys (JsMap.set k b n).
Proof.
  unfold JsMap.keys.
  induction m as [|[k0 a0] m IH]; intros [|[k1 b1] n]; simpl;
    try discriminate; [reflexivity|].
  intros [= <- Hrest].
  destruct (session_ref_eqb k k0); simpl; [now rewrite Hrest|].
  now rewrite (IH n Hrest).
Qed.

Lemma keys_delete_agree (A B : Type) k :
  forall (m : JsMap.t A) (n : JsMap.t B),
    JsMap.keys m = JsMap.keys n ->
    JsMap.keys (JsMap.delete k m) = JsMap.keys (JsMap.delete k n).
Proof.
  unfold JsMap.keys.
  induction m as [|[k0 a0] m IH]; intros [|[k1 b1] n]; simpl;
    try discriminate; [reflexivity|].
  intros [= <- Hrest].
  destruct (session_ref_eqb k k0); simpl; [now apply IH|].
  now rewrite (IH n Hrest).
Qed.
End JsMapKeys.

Module SuffixFacts.
Lemma substring_past (pre : string) (n m : nat) (s : string) :
  substring (String.length pre + n) m (pre ++ s) = substring n m s.
Proof. induction pre as [|a pre IH]; simpl; [reflexivity | exact IH]. Qed.

(** A string that ends in ".jpeg" does not end in ".jpg". *)
Lemma jpeg_is_not_jpg (pre : string) : endsWith (pre ++ ".jpeg") ".jpg" = false.
Proof.
  unfold endsWith. rewrite StringFacts.length_app.
  change (String.length ".jpeg") with 5. change (String.length ".jpg") with 4.
  destruct (Nat.leb_spec 4 (String.length pre + 5)); [|reflexivity].
  replace (String.length pre + 5 - 4) with (String.length pre + 1) by lia.
  rewrite substring_past. reflexivity.
Qed.
End SuffixFacts.

(* ------------------------------------------------------------------ *)
(** ** Further properties of the handlers *)
Section Coverage.
Context {Num : JsNumber}.
Variable driver : driver_t.

Ltac next_answer :=
  match goal with
  | |- context [driver ?tr ?c] =>
      let E := fresh "Answer" in destruct (driver tr c) eqn:E; simpl
  end.

Lemma session_ref_neq_eqb (k r : session_ref) :
  k <> r -> session_ref_eqb k r = false.
Proof. intros H. now destruct (session_ref_eqb_spec k r). Qed.

(** The two ways the [try] block of start_browser can end. *)
Lemma start_browser_try_cases b o w :
  let lo := make_launchOptions (default_options o) in
  let co := make_contextOptions (default_options o) in
  (exists e suffix,
      start_browser_try driver b o w =
        (Threw e,
         {| st := st w;
            trace := (trace w ++ suffix)%list;
            stderr := stderr w |})
      /\ forallb (fun c => negb (is_close c)) suffix = true)
  \/ (exists browserInstance context page now,
        start_browser_try driver b o w =
          (Returned
             {| content :=
                  [text_block
                     ("Browser started with session_id: "
                        ++ browser_name b ++ "_" ++ num_to_string now)] |},
           {| st :=
                registered (Id (browser_name b ++ "_" ++ num_to_string now))
                  browserInstance context page (st w);
              trace :=
                (trace w
                   ++ [Launch b lo; NewContext browserInstance co;
                       NewPage context; DateNow])%list;
              stderr := stderr w |})).
Proof.
  intros lo co.
  unfold start_browser_try, bind, await, ret, modify_state. fold lo. fold co.
  destruct b; simpl; next_answer;
    try (left; eexists; eexists (cons _ nil); split; reflexivity);
    next_answer;
    try (left; eexists; eexists (cons _ (cons _ nil)); split;
         [rewrite <- !app_assoc; reflexivity | reflexivity]);
    next_answer;
    try (left; eexists; eexists (cons _ (cons _ (cons _ nil))); split;
         [rewrite <- !app_assoc; reflexivity | reflexivity]);
    next_answer;
    try (left; eexists; eexists (cons _ (cons _ (cons _ (cons _ nil)))); split;
         [rewrite <- !app_assoc; reflexivity | reflexivity]);
    right; do 4 eexists; rewrite <- !app_assoc; reflexivity.
Qed.

Lemma start_browser_run b o w browserInstance context page now :
  let options := default_options o in
  let lo := make_launchOptions options in
  let co := make_contextOptions options in
  let sessionId := Id (browser_name b ++ "_" ++ num_to_string now) in
  driver (trace w) (Launch b lo) = Resolved browserInstance ->
  driver (trace w ++ [Launch b lo])%list (NewContext browserInstance co)
    = Resolved context ->
  driver (trace w ++ [Launch b lo; NewContext browserInstance co])%list
    (NewPage context) = Resolved page ->
  driver
    (trace w
       ++ [Launch b lo; NewContext browserInstance co; NewPage context])%list
    DateNow = Resolved now ->
  start_browser driver b o w =
    (Returned
       {| content :=
            [text_block
               ("Browser started with session_id: " ++ show_ref sessionId)] |},
     {| st := registered sessionId browserInstance context page (st w);
        trace :=
          (trace w
             ++ [Launch b lo; NewContext browserInstance co; NewPage context;
                 DateNow])%list;
        stderr := stderr w |}).
Proof.
  intros options lo co sessionId Hlaunch Hcontext Hpage Hnow.
  unfold start_browser, start_browser_try, try_catch, bind, await.
  fold options. fold lo. fold co.
  assert (Hl : match b with
               | chromium => driver (trace w) (Launch chromium lo)
               | firefox => driver (trace w) (Launch firefox lo)
               | webkit => driver (trace w) (Launch webkit lo)
               end = Resolved browserInstance) by (now destruct b).
  assert (Hpage' :
            driver ((trace w ++ [Launch b lo])
                      ++ [NewContext browserInstance co])%list
              (NewPage context) = Resolved page)
    by (rewrite <- app_assoc; exact Hpage).
  assert (Hnow' :
            driver (((trace w ++ [Launch b lo])
                       ++ [NewContext browserInstance co])
                      ++ [NewPage context])%list
              DateNow = Resolved now)
    by (rewrite <- !app_assoc; exact Hnow).
  replace (trace w
             ++ [Launch b lo; NewContext browserInstance co;
                 NewPage context; DateNow])%list
    with ((((trace w ++ [Launch b lo])
              ++ [NewContext browserInstance co])
             ++ [NewPage context]) ++ [DateNow])%list
    by (rewrite <- !app_assoc; reflexivity).
  destruct b; simpl in *; rewrite Hl; simpl; rewrite Hcontext; simpl;
    rewrite Hpage'; simpl; rewrite Hnow'; reflexivity.
Qed.

Lemma close_session_run w :
  close_session driver w =
  match JsMap.get (currentSession (st w)) (browsers (st w)) with
  | Some browser =>
      match driver (trace w) (Close browser) with
      | Resolved _ =>
          (Returned
             {| content :=
                  [text_block
                     ("Browser session " ++ show_ref (currentSession (st w))
                        ++ " closed")] |},
           {| st := forgotten (st w);
              trace := (trace w ++ [Close browser])%list;
              stderr := stderr w |})
      | Rejected e =>
          (Returned (error_envelope "closing session" e),
           {| st := st w;
              trace := (trace w ++ [Close browser])%list;
              stderr := stderr w |})
      end
  | None =>
      (Returned
         {| content :=
              [text_block
                 ("Browser session " ++ show_ref (currentSession (st w))
                    ++ " closed")] |},
       {| st := forgotten (st w); trace := trace w; stderr := stderr w |})
  end.
Proof.
  unfold close_session, close_session_try, try_catch, bind, get_state,
    modify_state, await, ret.
  destruct (JsMap.get (currentSession (st w)) (browsers (st w))); simpl.
  - destruct (driver (trace w) (Close h)); reflexivity.
  - reflexivity.
Qed.

(** X1. When launch, newContext, newPage and the clock all answer,
    start_browser reports the new id, whatever the registry held before,
    and the new session is the active one: [getPage] then returns the new
    page. *)
Theorem start_browser_activates_session (b : browser_kind) (o : options_arg)
    (w : world) (browserInstance context page : handle) (now : number) :
  let options := default_options (browserOptionsSchema o) in
  let lo := make_launchOptions options in
  let co := make_contextOptions options in
  let sessionId := Id (browser_name b ++ "_" ++ num_to_string now) in
  let after := snd (handle_tool driver (Start_browser b o) w) in
  driver (trace w) (Launch b lo) = Resolved browserInstance ->
  driver (trace w ++ [Launch b lo])%list (NewContext browserInstance co)
    = Resolved context ->
  driver (trace w ++ [Launch b lo; NewContext browserInstance co])%list
    (NewPage context) = Resolved page ->
  driver
    (trace w
       ++ [Launch b lo; NewContext browserInstance co; NewPage context])%list
    DateNow = Resolved now ->
  fst (handle_tool driver (Start_browser b o) w) =
    Returned
      {| content :=
           [text_block
              ("Browser started with session_id: " ++ show_ref sessionId)] |}
  /\ currentSession (st after) = sessionId
  /\ getPage after = (Returned page, after).
Proof.
  intros options lo co sessionId after Hlaunch Hcontext Hpage Hnow.
  unfold after. simpl handle_tool.
  rewrite (@start_browser_run b (browserOptionsSchema o) w
             browserInstance context page now Hlaunch Hcontext Hpage Hnow).
  split; [reflexivity|]. split; [reflexivity|].
  apply getPage_found. simpl. apply JsMapFacts.get_set_same.
Qed.

(** X2. When the [try] block of start_browser throws, the handler
    returns "Error starting browser: <message>", the three maps and
    [currentSession] are as before (no partial session is stored), and no
    [close] call was made: a browser that was launched before the failure
    stays open. *)
Theorem start_browser_failure_keeps_state (b : browser_kind) (o : options_arg)
    (w w' : world) (e : Error) :
  try_block driver (Start_browser b o) w = (Threw e, w') ->
  handle_tool driver (Start_browser b o) w =
    (Returned (error_envelope "starting browser" e), w')
  /\ st w' = st w
  /\ stderr w' = stderr w
  /\ exists suffix,
      trace w' = (trace w ++ suffix)%list /\
      forallb (fun c => negb (is_close c)) suffix = true.
Proof.
  simpl. intros Htry. unfold start_browser, try_catch. rewrite Htry.
  split; [reflexivity|].
  destruct (start_browser_try_cases b (browserOptionsSchema o) w)
    as [(e' & suffix & E & Hnoclose)|(bi & ctx & pg & n & E)];
    rewrite E in Htry; [|discriminate].
  injection Htry as <- <-. simpl. eauto.
Qed.

(** The calls that start_browser makes: none of them closes a browser,
    none of them is made on a page. *)
Lemma start_browser_calls b o w :
  exists calls,
    trace (snd (start_browser driver b o w)) = (trace w ++ calls)%list /\
    forallb (fun c => negb (is_close c)) calls = true /\
    Forall (fun c => call_page c = None) calls.
Proof.
  unfold start_browser, try_catch, start_browser_try, bind, await, ret,
    modify_state.
  destruct b; simpl; repeat next_answer;
    (eexists; split;
     [rewrite <- ?app_assoc; reflexivity
     | split; [reflexivity | repeat constructor]]).
Qed.

(** X3. start_browser leaves the sessions started earlier alone: it
    changes no entry of the registry other than the one under the id that
    is current after the call, so they stay registered with their
    browser, context and page; and none of the driver calls it makes
    closes a browser or acts on a page, so their browsers stay open and
    their pages untouched. *)
Theorem start_browser_keeps_other_entries (b : browser_kind) (o : options_arg)
    (w : world) (k : session_ref) :
  let after := snd (handle_tool driver (Start_browser b o) w) in
  k <> currentSession (st after) ->
  JsMap.get k (browsers (st after)) = JsMap.get k (browsers (st w)) /\
  JsMap.get k (contexts (st after)) = JsMap.get k (contexts (st w)) /\
  JsMap.get k (pages (st after)) = JsMap.get k (pages (st w)) /\
  exists calls,
    trace after = (trace w ++ calls)%list /\
    forallb (fun c => negb (is_close c)) calls = true /\
    Forall (fun c => call_page c = None) calls.
Proof.
  simpl. intros Hk.
  assert (Hcalls := start_browser_calls b (browserOptionsSchema o) w).
  destruct (start_browser_state driver b (browserOptionsSchema o) w)
    as [E|(id & bi & ctx & pg & E)]; rewrite E in *; [tauto|].
  simpl in *. apply session_ref_neq_eqb in Hk.
  now rewrite !JsMapFacts.get_set_other.
Qed.

(** X4. When closing the browser of the current session is rejected,
    close_session returns "Error closing session: <message>" and removes
    nothing: the session stays registered and stays the active one. *)
Theorem close_session_failure (w : world) (browser : handle) (e : Error) :
  JsMap.get (currentSession (st w)) (browsers (st w)) = Some browser ->
  driver (trace w) (Close browser) = Rejected e ->
  close_session driver w =
  (Returned (error_envelope "closing session" e),
   {| st := st w;
      trace := (trace w ++ [Close browser])%list;
      stderr := stderr w |}).
Proof.
  intros Hget Hclose. rewrite close_session_run, Hget, Hclose. reflexivity.
Qed.

(** X5. close_session changes no entry of the registry other than the
    one under the id that was current: the other sessions stay registered
    (and, the pointer being [null] afterwards, out of reach). *)
Theorem close_session_keeps_other_entries (w : world) (k : session_ref) :
  let after := snd (close_session driver w) in
  k <> currentSession (st w) ->
  JsMap.get k (browsers (st after)) = JsMap.get k (browsers (st w)) /\
  JsMap.get k (contexts (st after)) = JsMap.get k (contexts (st w)) /\
  JsMap.get k (pages (st after)) = JsMap.get k (pages (st w)).
Proof.
  simpl. intros Hk. apply session_ref_neq_eqb in Hk.
  destruct (close_session_state driver w) as [E|E]; rewrite E; [tauto|].
  unfold forgotten; simpl. now rewrite !JsMapFacts.get_delete_other.
Qed.

(** X6. In a reachable world with an active session, close_session makes
    exactly one driver call, [close] on the browser registered under the
    current id, whether that call succeeds or not. *)
Theorem close_session_closes_current (w : world) (id : string) :
  reachable driver w ->
  currentSession (st w) = Id id ->
  exists browser,
    JsMap.get (Id id) (browsers (st w)) = Some browser /\
    trace (snd (close_session driver w)) = (trace w ++ [Close browser])%list.
Proof.
  intros Hreach Hptr.
  destruct (reachable_invariant Hreach) as [_ Hvalid].
  destruct (Hvalid id Hptr) as (Hb & _ & _).
  unfold JsMap.has in Hb.
  destruct (JsMap.get (Id id) (browsers (st w))) as [browser|] eqn:Hget;
    [|discriminate].
  exists browser. split; [reflexivity|].
  rewrite close_session_run, Hptr, Hget.
  now destruct (driver (trace w) (Close browser)).
Qed.

(** *** Invariants of the three maps *)

Lemma same_keys_step w ev :
  same_keys (st w) -> same_keys (st (step driver w ev)).
Proof.
  intros [Hbc Hcp].
  destruct (step_state driver w ev) as [E|[(id & b & c & p & E)|[E|E]]];
    rewrite E; unfold same_keys; simpl.
  - now split.
  - split; now apply JsMapKeys.keys_set_agree.
  - split; now apply JsMapKeys.keys_delete_agree.
  - now split.
Qed.

(** X7. In every reachable world the three maps have the same keys in the
    same order: a session id is registered with a browser, a context and
    a page, or not at all. *)
Theorem registry_keys_agree (w : world) :
  reachable driver w ->
  JsMap.keys (browsers (st w)) = JsMap.keys (contexts (st w)) /\
  JsMap.keys (contexts (st w)) = JsMap.keys (pages (st w)).
Proof.
  induction 1 as [|w ev Hw IH].
  - split; reflexivity.
  - now apply same_keys_step.
Qed.

(** *** The status resource *)

Lemma step_pointer w ev :
  currentSession (st (step driver w ev)) = currentSession (st w) \/
  currentSession (st (step driver w ev)) = Null \/
  generated_id (currentSession (st (step driver w ev))).
Proof.
  destruct ev as [c| |sig]; simpl.
  - destruct (requires_page c) eqn:R.
    + left. now rewrite (page_tools_keep_state driver c R w).
    + destruct c; try discriminate; simpl.
      * unfold start_browser, try_catch.
        destruct (start_browser_try_cases browser
                    (browserOptionsSchema options) w)
          as [(e & suffix & E & _)|(bi & ctx & pg & n & E)]; rewrite E; simpl.
        -- now left.
        -- right; right. now exists browser, n.
      * destruct (close_session_state driver w) as [E|E]; rewrite E; auto.
  - now left.
  - right; left. destruct sig; simpl; now rewrite cleanup_run.
Qed.

Lemma reachable_pointer_generated w :
  reachable driver w ->
  currentSession (st w) = Null \/ generated_id (currentSession (st w)).
Proof.
  induction 1 as [|w ev Hw IH]; [now left|].
  destruct (step_pointer w ev) as [E|[E|E]]; [rewrite E; exact IH | auto ..].
Qed.

Lemma generated_id_truthy r : generated_id r -> ref_truthy r = true.
Proof. intros (b & n & ->). now destruct b. Qed.

(** X9. In every reachable world the status resource answers
    "No active browser session" when [currentSession] is [null] and
    "Active browser session: <id>" when it holds an id, and reading it
    changes nothing. (An id is never the empty string, which the test on
    [state.currentSession] would take for no session.) *)
Theorem browser_status_reports_pointer (w : world) :
  reachable driver w ->
  browser_status w =
  (Returned
     match currentSession (st w) with
     | Null => "No active browser session"
     | Id id => "Active browser session: " ++ id
     end,
   w).
Proof.
  intros Hreach. unfold browser_status, bind, get_state, ret.
  destruct (reachable_pointer_generated Hreach) as [E|G].
  - now rewrite E.
  - rewrite (generated_id_truthy G).
    destruct G as (b & n & ->). reflexivity.
Qed.

(** *** Page tools *)

(** X10. Every driver call that a page tool makes is a call on the page
    of the current session: a page tool launches nothing, closes nothing,
    and touches the page of no other session. *)
Theorem page_tools_call_active_page (c : tool_call) (w : world)
    (page : handle) :
  requires_page c = true ->
  JsMap.get (currentSession (st w)) (pages (st w)) = Some page ->
  exists calls,
    trace (snd (handle_tool driver c w)) = (trace w ++ calls)%list /\
    Forall (fun k => call_page k = Some page) calls.
Proof.
  intros Hreq Hpage. pose proof (getPage_found w Hpage) as Hget.
  destruct c; try discriminate; simpl;
    unfold navigate, navigate_try, get_current_url, get_current_url_try,
      refresh_browser, refresh_browser_try, sleep, sleep_try,
      find_element, find_element_try, click_element, click_element_try,
      send_keys, send_keys_try, get_element_text, get_element_text_try,
      hover, hover_try, drag_and_drop, drag_and_drop_try,
      double_click, double_click_try, right_click, right_click_try,
      press_key, press_key_try, upload_file, upload_file_try,
      take_screenshot, take_screenshot_try,
      get_page_source, get_page_source_try;
    unfold try_catch, bind; rewrite Hget; unfold await, ret; simpl;
    repeat
      (match goal with
       | |- context [if ?b then _ else _] => destruct b; simpl
       | |- context [driver ?tr ?k] => destruct (driver tr k); simpl
       end);
    first
      [ exists nil; split; [now rewrite app_nil_r | constructor]
      | eexists (cons _ nil); split; [reflexivity | repeat constructor]
      | eexists (cons _ (cons _ nil)); split;
        [rewrite <- app_assoc; reflexivity | repeat constructor] ].
Qed.

(** X11. sleep with a duration that is not greater than zero makes no
    driver call at all, and still answers "Slept for <ms>ms"; it needs an
    active session all the same. *)
Theorem sleep_without_wait (ms : option number) (w : world) (page : handle) :
  JsMap.get (currentSession (st w)) (pages (st w)) = Some page ->
  num_gt (or_default ms (num_lit 5000)) (num_lit 0) = false ->
  sleep driver ms w =
  (Returned
     {| content :=
          [text_block
             ("Slept for " ++ num_to_string (or_default ms (num_lit 5000))
                ++ "ms")] |},
   w).
Proof.
  intros Hpage Hgt. unfold sleep, sleep_try, try_catch, bind.
  rewrite (getPage_found w Hpage), Hgt. reflexivity.
Qed.

(** X12. When [textContent] resolves to a string, get_element_text
    returns that string unchanged as its single text block, the empty
    string included. *)
Theorem get_element_text_returns_text (selector : string)
    (timeout : option number) (w : world) (page : handle) (s : string) :
  JsMap.get (currentSession (st w)) (pages (st w)) = Some page ->
  driver (trace w)
    (TextContent page selector (or_default timeout (num_lit 10000)))
  = Resolved (Some s) ->
  fst (get_element_text driver selector timeout w) =
  Returned {| content := [text_block s] |}.
Proof.
  intros Hpage Htext.
  unfold get_element_text, get_element_text_try, try_catch, bind.
  rewrite (getPage_found w Hpage). unfold await. rewrite Htext.
  now destruct s.
Qed.

(** X13. Only the extension ".jpg" selects JPEG: for an [outputPath] that
    ends in ".jpeg" take_screenshot asks the driver for a PNG image, to be
    written to that path. *)
Theorem jpeg_extension_gets_png (pre : string) (fullPage : option bool)
    (w : world) (page : handle) :
  JsMap.get (currentSession (st w)) (pages (st w)) = Some page ->
  trace (snd (take_screenshot driver (Some (pre ++ ".jpeg")) fullPage w)) =
  (trace w
     ++ [Screenshot page (Some (pre ++ ".jpeg")%string)
           (or_default fullPage false) png])%list.
Proof.
  intros Hpage. unfold take_screenshot, take_screenshot_try, try_catch, bind.
  rewrite (getPage_found w Hpage). unfold await, screenshot_type.
  rewrite SuffixFacts.jpeg_is_not_jpg.
  destruct (driver _ _); [|reflexivity].
  now destruct (str_truthy (Some (pre ++ ".jpeg"))).
Qed.

(** *** Options and round trips *)

Lemma launchOptions_without_blanks o :
  make_launchOptions (Obj o) = make_launchOptions (Obj (without_blanks o)).
Proof.
  destruct o as [h v ua dir ch]. unfold make_launchOptions; simpl.
  destruct dir as [[|a dir]|], ch as [[|c ch]|]; reflexivity.
Qed.

Lemma contextOptions_without_blanks o :
  make_contextOptions (Obj o) = make_contextOptions (Obj (without_blanks o)).
Proof.
  destruct o as [h v ua dir ch]. unfold make_contextOptions; simpl.
  destruct ua as [[|a ua]|]; reflexivity.
Qed.

(** X14. An empty string given as [userDataDir], [channel] or [userAgent]
    is ignored: start_browser runs exactly as it does when those fields
    are left out. *)
Theorem blank_options_are_ignored (b : browser_kind) (o : browser_options)
    (w : world) :
  handle_tool driver (Start_browser b (Obj o)) w =
  handle_tool driver (Start_browser b (Obj (without_blanks o))) w.
Proof.
  simpl. unfold start_browser, start_browser_try. simpl default_options.
  now rewrite <- launchOptions_without_blanks,
    <- contextOptions_without_blanks.
Qed.

(** X15. Starting a session under an id that the registry does not hold
    and closing it right away restores the three maps; [currentSession]
    is [null] afterwards, whatever it was before. *)
Theorem start_then_close_restores_registry (b : browser_kind)
    (o : options_arg) (w : world) (browserInstance context page : handle)
    (now : number) :
  let options := default_options (browserOptionsSchema o) in
  let lo := make_launchOptions options in
  let co := make_contextOptions options in
  let sessionId := Id (browser_name b ++ "_" ++ num_to_string now) in
  let calls :=
    [Launch b lo; NewContext browserInstance co; NewPage context; DateNow] in
  JsMap.has sessionId (browsers (st w)) = false ->
  JsMap.has sessionId (contexts (st w)) = false ->
  JsMap.has sessionId (pages (st w)) = false ->
  driver (trace w) (Launch b lo) = Resolved browserInstance ->
  driver (trace w ++ [Launch b lo])%list (NewContext browserInstance co)
    = Resolved context ->
  driver (trace w ++ [Launch b lo; NewContext browserInstance co])%list
    (NewPage context) = Resolved page ->
  driver
    (trace w
       ++ [Launch b lo; NewContext browserInstance co; NewPage context])%list
    DateNow = Resolved now ->
  driver (trace w ++ calls)%list (Close browserInstance) = Resolved tt ->
  step driver (step driver w (Tool (Start_browser b o))) (Tool Close_session)
  = {| st := with_currentSession Null (st w);
       trace := (trace w ++ calls ++ [Close browserInstance])%list;
       stderr := stderr w |}.
Proof.
  intros options lo co sessionId calls Hb Hc Hp Hlaunch Hcontext Hpage Hnow
    Hclose.
  simpl step.
  rewrite (@start_browser_run b (browserOptionsSchema o) w
             browserInstance context page now Hlaunch Hcontext Hpage Hnow).
  cbn [snd].
  match goal with
  | |- snd (close_session driver ?x) = _ => set (w1 := x)
  end.
  assert (Hget : JsMap.get (currentSession (st w1)) (browsers (st w1))
                 = Some browserInstance)
    by (simpl; apply JsMapFacts.get_set_same).
  assert (Hclose' : driver (trace w1) (Close browserInstance) = Resolved tt)
    by exact Hclose.
  rewrite close_session_run, Hget, Hclose'. cbn [snd].
  unfold forgotten, with_currentSession; simpl.
  rewrite !JsMapKeys.delete_set_fresh by assumption.
  now rewrite <- app_assoc.
Qed.
End Coverage.

(* ------------------------------------------------------------------ *)
(** ** Concrete runs of the further properties *)
Section CoverageRuns.
#[local] Existing Instance ZNumber.

Example second_session_state :
  st second_session =
  {| browsers := [(Id "chromium_1003", 0); (Id "firefox_1007", 4)];
     contexts := [(Id "chromium_1003", 1); (Id "firefox_1007", 5)];
     pages := [(Id "chromium_1003", 2); (Id "firefox_1007", 6)];
     currentSession := Id "firefox_1007" |}.
Proof. reflexivity. Qed.

Lemma second_session_reachable : reachable drv second_session.
Proof. apply reachable_run. Qed.

Lemma start_browser_activates_session_witness :
  fst (handle_tool drv (Start_browser firefox NullOptions) one_session) =
    Returned
      {| content :=
           [text_block "Browser started with session_id: firefox_1007"] |}
  /\ currentSession (st second_session) = Id "firefox_1007"
  /\ getPage second_session = (Returned 6, second_session).
Proof.
  refine (@start_browser_activates_session _ drv firefox NullOptions
            one_session 4 5 6 1007%Z _ _ _ _); reflexivity.
Defined.

Lemma start_browser_failure_keeps_state_witness :
  try_block contextless_driver (Start_browser chromium Undefined)
    initial_world
  = (Threw (mkError "Browser has been closed"), failed_start)
  /\ handle_tool contextless_driver (Start_browser chromium Undefined)
       initial_world
     = (Returned
          {| content :=
               [text_block "Error starting browser: Browser has been closed"]
          |},
        failed_start)
  /\ st failed_start = st initial_world.
Proof.
  assert (H : try_block contextless_driver (Start_browser chromium Undefined)
                initial_world
              = (Threw (mkError "Browser has been closed"), failed_start))
    by reflexivity.
  pose proof (start_browser_failure_keeps_state contextless_driver
                chromium Undefined initial_world H) as (Henv & Hst & _).
  split; [exact H|]. split; [exact Henv | exact Hst].
Defined.

Lemma start_browser_keeps_other_entries_witness :
  Id "chromium_1003" <> currentSession (st second_session) /\
  JsMap.get (Id "chromium_1003") (browsers (st second_session)) = Some 0 /\
  JsMap.get (Id "chromium_1003") (contexts (st second_session)) = Some 1 /\
  JsMap.get (Id "chromium_1003") (pages (st second_session)) = Some 2 /\
  exists calls,
    trace second_session = (trace one_session ++ calls)%list /\
    forallb (fun c => negb (is_close c)) calls = true /\
    Forall (fun c => call_page c = None) calls.
Proof.
  assert (H : Id "chromium_1003" <>
              currentSession
                (st (snd (handle_tool drv (Start_browser firefox NullOptions)
                            one_session))))
    by (vm_compute; discriminate).
  split; [exact H|].
  exact (@start_browser_keeps_other_entries _ drv firefox NullOptions
           one_session (Id "chromium_1003") H).
Defined.

Lemma close_session_failure_witness :
  JsMap.get (currentSession (st stubborn_session))
    (browsers (st stubborn_session)) = Some 0 /\
  stubborn_driver 0 (trace stubborn_session) (Close 0)
    = Rejected (mkError "Target closed") /\
  close_session (stubborn_driver 0) stubborn_session =
  (Returned
     {| content := [text_block "Error closing session: Target closed"] |},
   {| st := st stubborn_session;
      trace := (trace stubborn_session ++ [Close 0])%list;
      stderr := [] |}).
Proof.
  assert (H1 : JsMap.get (currentSession (st stubborn_session))
                 (browsers (st stubborn_session)) = Some 0) by reflexivity.
  assert (H2 : stubborn_driver 0 (trace stubborn_session) (Close 0)
               = Rejected (mkError "Target closed")) by reflexivity.
  split; [exact H1|]. split; [exact H2|].
  exact (@close_session_failure _ (stubborn_driver 0) stubborn_session 0
           (mkError "Target closed") H1 H2).
Defined.

Lemma close_session_keeps_other_entries_witness :
  Id "chromium_1003" <> currentSession (st second_session) /\
  JsMap.get (Id "chromium_1003")
    (browsers (st (snd (close_session drv second_session)))) = Some 0 /\
  JsMap.get (Id "chromium_1003")
    (contexts (st (snd (close_session drv second_session)))) = Some 1 /\
  JsMap.get (Id "chromium_1003")
    (pages (st (snd (close_session drv second_session)))) = Some 2.
Proof.
  assert (H : Id "chromium_1003" <> currentSession (st second_session))
    by (vm_compute; discriminate).
  split; [exact H|].
  exact (@close_session_keeps_other_entries _ drv second_session
           (Id "chromium_1003") H).
Defined.

Lemma close_session_closes_current_witness :
  reachable drv second_session /\
  currentSession (st second_session) = Id "firefox_1007" /\
  exists browser,
    JsMap.get (Id "firefox_1007") (browsers (st second_session))
      = Some browser /\
    trace (snd (close_session drv second_session))
      = (trace second_session ++ [Close browser])%list.
Proof.
  assert (H1 : reachable drv second_session) by apply reachable_run.
  assert (H2 : currentSession (st second_session) = Id "firefox_1007")
    by reflexivity.
  split; [exact H1|]. split; [exact H2|].
  exact (@close_session_closes_current _ drv second_session
           "firefox_1007" H1 H2).
Defined.

Lemma registry_keys_agree_witness :
  reachable drv second_session /\
  JsMap.keys (browsers (st second_session))
    = JsMap.keys (contexts (st second_session)) /\
  JsMap.keys (contexts (st second_session))
    = JsMap.keys (pages (st second_session)).
Proof.
  assert (H : reachable drv second_session) by apply reachable_run.
  split; [exact H|].
  exact (@registry_keys_agree _ drv second_session H).
Defined.

Lemma browser_status_reports_pointer_witness :
  reachable drv one_session /\
  browser_status one_session =
  (Returned "Active browser session: chromium_1003", one_session).
Proof.
  assert (H : reachable drv one_session) by apply reachable_run.
  split; [exact H|].
  exact (@browser_status_reports_pointer _ drv one_session H).
Defined.

Lemma page_tools_call_active_page_witness :
  requires_page (Refresh_browser None) = true /\
  JsMap.get (currentSession (st one_session)) (pages (st one_session))
    = Some 2 /\
  exists calls,
    trace (snd (handle_tool drv (Refresh_browser None) one_session))
      = (trace one_session ++ calls)%list /\
    Forall (fun k => call_page k = Some 2) calls.
Proof.
  assert (H1 : requires_page (Refresh_browser None) = true) by reflexivity.
  assert (H2 : JsMap.get (currentSession (st one_session))
                 (pages (st one_session)) = Some 2) by reflexivity.
  split; [exact H1|]. split; [exact H2|].
  exact (@page_tools_call_active_page _ drv (Refresh_browser None)
           one_session 2 H1 H2).
Defined.

Lemma sleep_without_wait_witness :
  JsMap.get (currentSession (st one_session)) (pages (st one_session))
    = Some 2 /\
  num_gt (or_default (Some 0%Z) (num_lit 5000)) (num_lit 0) = false /\
  sleep drv (Some 0%Z) one_session =
  (Returned {| content := [text_block "Slept for 0ms"] |}, one_session).
Proof.
  assert (H1 : JsMap.get (currentSession (st one_session))
                 (pages (st one_session)) = Some 2) by reflexivity.
  assert (H2 : num_gt (or_default (Some 0%Z) (num_lit 5000)) (num_lit 0)
               = false) by reflexivity.
  split; [exact H1|]. split; [exact H2|].
  exact (@sleep_without_wait _ drv (Some 0%Z) one_session 2 H1 H2).
Defined.

Lemma get_element_text_returns_text_witness :
  JsMap.get (currentSession (st one_session)) (pages (st one_session))
    = Some 2 /\
  hello_driver (trace one_session) (TextContent 2 "h1" 10000%Z)
    = Resolved (Some "Hello") /\
  fst (get_element_text hello_driver "h1" None one_session) =
  Returned {| content := [text_block "Hello"] |}.
Proof.
  assert (H1 : JsMap.get (currentSession (st one_session))
                 (pages (st one_session)) = Some 2) by reflexivity.
  assert (H2 : hello_driver (trace one_session)
                 (TextContent 2 "h1" (or_default None (num_lit 10000)))
               = Resolved (Some "Hello")) by reflexivity.
  split; [exact H1|]. split; [exact H2|].
  exact (@get_element_text_returns_text _ hello_driver "h1" None one_session
           2 "Hello" H1 H2).
Defined.

Lemma jpeg_extension_gets_png_witness :
  JsMap.get (currentSession (st one_session)) (pages (st one_session))
    = Some 2 /\
  trace (snd (take_screenshot drv (Some "shot.jpeg") None one_session)) =
  (trace one_session ++ [Screenshot 2 (Some "shot.jpeg") false png])%list.
Proof.
  assert (H1 : JsMap.get (currentSession (st one_session))
                 (pages (st one_session)) = Some 2) by reflexivity.
  split; [exact H1|].
  exact (@jpeg_extension_gets_png _ drv "shot" None one_session 2 H1).
Defined.

Lemma start_then_close_restores_registry_witness :
  JsMap.has (Id "firefox_1007") (browsers (st one_session)) = false /\
  step drv (step drv one_session (Tool (Start_browser firefox NullOptions)))
    (Tool Close_session)
  = {| st := with_currentSession Null (st one_session);
       trace :=
         (trace one_session
            ++ [Launch firefox
                  {| headless := false; args := None; channel := None |};
                NewContext 4 {| viewport := None; userAgent := None |};
                NewPage 5; DateNow; Close 4])%list;
       stderr := [] |}.
Proof.
  split; [reflexivity|].
  refine (@start_then_close_restores_registry _ drv firefox NullOptions
            one_session 4 5 6 1007%Z _ _ _ _ _ _ _ _); reflexivity.
Defined.
End CoverageRuns.
